(** * The request/session core of the CRM Platform Python SDK

    A shallow embedding of [crm_sdk/exceptions.py], of the session and
    dispatch layer of [crm_sdk/client.py] and of the pagination container
    of [crm_sdk/models.py], followed by the properties of that core.

    Conventions of the embedding:
    - a value decoded from JSON, or held in a dynamically typed attribute,
      is a [pyval]; JSON numbers with a fractional part are not modelled;
    - a [datetime] is the number of microseconds since
      0001-01-01T00:00:00, a [timedelta] a number of microseconds; both
      keep the range checks of Python's [datetime] module;
    - a method of the client is a function from the [World] (the client
      object, the log of calls handed to the HTTP transport, the number of
      clock readings made so far) to an [Outcome] and the world left
      behind; an exception leaves the mutations made before it in place;
    - the world outside the process is a pair of oracles: [clock k] is
      the value of the k-th call of [datetime.now()], [reply k] what the
      transport does with the k-th call handed to it. *)

From Stdlib Require Import ZArith Lia.
From stdpp Require Import gmap strings list.

Local Open Scope string_scope.
Local Open Scope list_scope.
Local Open Scope Z_scope.
Set Warnings "-register-all".

(** ** Python values *)

Inductive pyval : Type :=
| PNone
| PBool (b : bool)
| PInt (n : Z)
| PStr (s : string)
| PList (l : list pyval)
| PDict (d : list (string * pyval)).

(** Python's truth value testing, as used by [if x], [not x] and [x or y]. *)
Definition truthy (v : pyval) : bool :=
  match v with
  | PNone => false
  | PBool b => b
  | PInt n => negb (n =? 0)
  | PStr s => negb (String.eqb s "")
  | PList l => match l with [] => false | _ => true end
  | PDict d => match d with [] => false | _ => true end
  end.

(** Truth value of an [Optional[str]] attribute. *)
Definition truthy_str (o : option string) : bool :=
  match o with
  | None => false
  | Some s => negb (String.eqb s "")
  end.

(** The string an [Optional[str]] holds when it is truthy: [if x: ... x
    ...] runs its body on exactly these. *)
Definition nonempty (o : option string) : option string :=
  if truthy_str o then o else None.

(** [a or b] on two [Optional[str]] values. *)
Definition or_str (a b : option string) : option string :=
  if truthy_str a then a else b.

Definition py_of_str (o : option string) : pyval :=
  match o with
  | None => PNone
  | Some s => PStr s
  end.

(** A [dict] keeps its keys in insertion order and holds each key once. *)
Fixpoint dict_get {V : Type} (k : string) (d : list (string * V)) : option V :=
  match d with
  | [] => None
  | (k', v) :: d' => if String.eqb k k' then Some v else dict_get k d'
  end.

(** [d[k] = v]: overwrite in place, or append a new key. *)
Fixpoint dict_set {V : Type} (k : string) (v : V) (d : list (string * V))
  : list (string * V) :=
  match d with
  | [] => [(k, v)]
  | (k', v') :: d' =>
      if String.eqb k k' then (k, v) :: d' else (k', v') :: dict_set k v d'
  end.

(** [d.get(k, default)] on a dict. *)
Definition get_default (d : list (string * pyval)) (k : string) (default : pyval)
  : pyval :=
  match dict_get k d with
  | Some v => v
  | None => default
  end.

(** ** Exceptions *)

(** The classes of [exceptions.py]; [CRMError] is the base class, raised
    as such for the statuses no subclass covers. *)
Inductive ErrorClass : Type :=
| CRMError
| AuthenticationError
| AuthorizationError
| NotFoundError
| ValidationError
| ConflictError
| RateLimitError
| ServerError
| NetworkError
| TimeoutError.

(** An instance of one of these classes: the attributes set by
    [CRMError.__init__], and the attribute a subclass adds ([None] where
    the class has no such attribute). *)
Record SdkError : Type := mkSdkError {
  cls : ErrorClass;
  message : pyval;
  status_code : option Z;
  error_code : pyval;
  details : pyval;
  retry_after : option pyval;
  timeout_attr : option Z;
  original_error : option string
}.

Inductive exn : Type :=
| Sdk (e : SdkError)
| PyTypeError
| PyKeyError (k : string)
| PyAttributeError
| PyOverflowError
| JSONDecodeError
| PydanticValidationError
| HttpxTimeoutException (description : string)
| HttpxRequestError (description : string).

Inductive Outcome (A : Type) : Type :=
| Ret (a : A)
| Raise (e : exn).
Arguments Ret {A} a.
Arguments Raise {A} e.

(** ** Instants and durations *)

Definition datetime : Type := Z.
Definition timedelta : Type := Z.

(** [datetime.max] is 9999-12-31T23:59:59.999999, the day of ordinal 3652059. *)
Definition datetime_max : Z := 3652059 * 86400 * 1000000 - 1.
Definition day_us : Z := 86400 * 1000000.
Definition timedelta_max_days : Z := 999999999.

(** [timedelta(minutes=5)]. *)
Definition five_minutes : timedelta := 5 * 60 * 1000000.

(** [timedelta(seconds=v)]: an int (a bool is an int) gives a duration,
    unless its day count leaves the range of [timedelta]; anything else
    is a [TypeError]. *)
Definition timedelta_seconds (v : pyval) : Outcome timedelta :=
  match v with
  | PInt n =>
      let us := n * 1000000 in
      if (- timedelta_max_days <=? us / day_us) && (us / day_us <=? timedelta_max_days)
      then Ret us else Raise PyOverflowError
  | PBool b => Ret (if b then 1000000 else 0)
  | _ => Raise PyTypeError
  end.

(** [d + td] and [d - td] on a datetime: an [OverflowError] outside
    [datetime.min .. datetime.max]. *)
Definition datetime_add (d : datetime) (td : timedelta) : Outcome datetime :=
  if (0 <=? d + td) && (d + td <=? datetime_max) then Ret (d + td)
  else Raise PyOverflowError.

Definition datetime_sub (d : datetime) (td : timedelta) : Outcome datetime :=
  datetime_add d (- td).

(** ** The client object *)

(** The attributes of [CRMClient] set by [__init__]. [api_key] and
    [tenant_id] are the constructor's [Optional[str]] arguments; the two
    tokens are stored as received from the server, whatever their JSON
    type. [timeout] is in whole seconds. *)
Record Session : Type := mkSession {
  base_url : string;
  api_key : option string;
  tenant_id : option string;
  timeout : Z;
  auto_refresh : bool;
  _access_token : pyval;
  _refresh_token : pyval;
  _token_expires_at : option datetime
}.

Definition set_access_token (v : pyval) (s : Session) : Session :=
  mkSession (base_url s) (api_key s) (tenant_id s) (timeout s) (auto_refresh s)
            v (_refresh_token s) (_token_expires_at s).

Definition set_refresh_token (v : pyval) (s : Session) : Session :=
  mkSession (base_url s) (api_key s) (tenant_id s) (timeout s) (auto_refresh s)
            (_access_token s) v (_token_expires_at s).

Definition set_token_expires_at (e : option datetime) (s : Session) : Session :=
  mkSession (base_url s) (api_key s) (tenant_id s) (timeout s) (auto_refresh s)
            (_access_token s) (_refresh_token s) e.

(** ** [exceptions.py] *)

(** [details or {}]. *)
Definition or_empty_dict (details : pyval) : pyval :=
  if truthy details then details else PDict [].

(** [error_code or default]. *)
Definition or_code (error_code : pyval) (default : string) : pyval :=
  if truthy error_code then error_code else PStr default.

(** [obj[k] = v] with a string key: defined on a dict only, a
    [TypeError] on every other value. *)
Definition setitem (obj : pyval) (k : string) (v : pyval) : option pyval :=
  match obj with
  | PDict d => Some (PDict (dict_set k v d))
  | _ => None
  end.

(** [CRMError.__init__]. *)
Definition CRMError_init (c : ErrorClass) (message : pyval) (status_code : option Z)
    (error_code details : pyval) : SdkError :=
  mkSdkError c message status_code error_code (or_empty_dict details) None None None.

Definition AuthenticationError_init (message error_code details : pyval) : SdkError :=
  CRMError_init AuthenticationError message (Some 401)
                (or_code error_code "AUTHENTICATION_ERROR") details.

Definition AuthorizationError_init (message error_code details : pyval) : SdkError :=
  CRMError_init AuthorizationError message (Some 403)
                (or_code error_code "AUTHORIZATION_ERROR") details.

Definition ConflictError_init (message error_code details : pyval) : SdkError :=
  CRMError_init ConflictError message (Some 409) (or_code error_code "CONFLICT") details.

Definition ServerError_init (message : pyval) (status_code : Z)
    (error_code details : pyval) : SdkError :=
  CRMError_init ServerError message (Some status_code)
                (or_code error_code "SERVER_ERROR") details.

(** [NotFoundError.__init__] as [raise_for_status] calls it, with
    [resource_type] and [resource_id] left at [None]: nothing is written
    into [details]. *)
Definition NotFoundError_init (message details : pyval) : SdkError :=
  CRMError_init NotFoundError message (Some 404) (PStr "NOT_FOUND")
                (or_empty_dict details).

(** The constructors below write into [details] after [details = details
    or {}]. When the argument is truthy the write lands in the caller's
    own object, so each returns, next to the instance built (or the
    [TypeError] of an item assignment on a value that is no dict), the
    content of the caller's [details] object once the constructor is
    done. *)
Definition write_detail (c : ErrorClass) (message : pyval) (status : option Z)
    (code : string) (details : pyval) (key : string) (v : pyval) (cond : bool)
    (finish : SdkError -> SdkError) : Outcome SdkError * pyval :=
  let d := or_empty_dict details in
  if cond then
    match setitem d key v with
    | Some d' =>
        (Ret (finish (CRMError_init c message status (PStr code) d')),
         if truthy details then d' else details)
    | None => (Raise PyTypeError, details)
    end
  else (Ret (finish (CRMError_init c message status (PStr code) d)), details).

Definition ValidationError_init (message errors details : pyval)
  : Outcome SdkError * pyval :=
  write_detail ValidationError message (Some 400) "VALIDATION_ERROR" details
               "validation_errors" errors (truthy errors) (fun e => e).

Definition with_retry_after (v : pyval) (e : SdkError) : SdkError :=
  mkSdkError (cls e) (message e) (status_code e) (error_code e) (details e)
             (Some v) (timeout_attr e) (original_error e).

Definition RateLimitError_init (message retry_after details : pyval)
  : Outcome SdkError * pyval :=
  write_detail RateLimitError message (Some 429) "RATE_LIMIT_EXCEEDED" details
               "retry_after" retry_after (truthy retry_after)
               (with_retry_after retry_after).

(** [NetworkError(message, original_error=e)], as [request] calls it:
    [details] is a fresh dict, and an exception object is always truthy,
    so [str(e)] is always recorded. *)
Definition NetworkError_init (message : string) (err : string) : SdkError :=
  mkSdkError NetworkError (PStr message) None (PStr "NETWORK_ERROR")
             (PDict [("original_error", PStr err)]) None None (Some err).

(** [TimeoutError(message, timeout=t)], as [request] calls it. *)
Definition TimeoutError_init (message : string) (t : Z) : SdkError :=
  mkSdkError TimeoutError (PStr message) None (PStr "TIMEOUT")
             (if t =? 0 then PDict [] else PDict [("timeout", PInt t)])
             None (Some t) None.

Definition exn_of (o : Outcome SdkError) : exn :=
  match o with
  | Ret e => Sdk e
  | Raise x => x
  end.

(** [raise_for_status] never returns: the result is the exception that
    leaves it, and the content of the [response_data] object afterwards.
    A [response_data] that is no dict has no [get] method. *)
Definition raise_for_status (status_code : Z) (response_data : pyval) : exn * pyval :=
  match response_data with
  | PDict rd =>
      let error_message :=
        get_default rd "error" (get_default rd "message" (PStr "Unknown error")) in
      let error_code := get_default rd "code" PNone in
      let details := get_default rd "details" (PDict []) in
      let after (d' : pyval) : pyval :=
        match dict_get "details" rd with
        | Some _ => PDict (dict_set "details" d' rd)
        | None => response_data
        end in
      if status_code =? 400 then
        let '(o, d') :=
          ValidationError_init error_message (get_default rd "errors" PNone) details in
        (exn_of o, after d')
      else if status_code =? 401 then
        (Sdk (AuthenticationError_init error_message error_code details), response_data)
      else if status_code =? 403 then
        (Sdk (AuthorizationError_init error_message error_code details), response_data)
      else if status_code =? 404 then
        (Sdk (NotFoundError_init error_message details), response_data)
      else if status_code =? 409 then
        (Sdk (ConflictError_init error_message error_code details), response_data)
      else if status_code =? 429 then
        let '(o, d') :=
          RateLimitError_init error_message (get_default rd "retry_after" PNone) details in
        (exn_of o, after d')
      else if 500 <=? status_code then
        (Sdk (ServerError_init error_message status_code error_code details), response_data)
      else
        (Sdk (CRMError_init CRMError error_message (Some status_code) error_code details),
         response_data)
  | _ => (PyAttributeError, response_data)
  end.

(** The table of section 4.4: the class a status stands for. *)
Definition class_of_status (status_code : Z) : ErrorClass :=
  if status_code =? 400 then ValidationError
  else if status_code =? 401 then AuthenticationError
  else if status_code =? 403 then AuthorizationError
  else if status_code =? 404 then NotFoundError
  else if status_code =? 409 then ConflictError
  else if status_code =? 429 then RateLimitError
  else if 500 <=? status_code then ServerError
  else CRMError.

(** ** HTTP transport *)

(** What the client hands to [httpx]: method, URL, query parameters, JSON
    body and the headers passed explicitly ([None] when the call passes
    none). Extra keyword arguments forwarded to [httpx] are not modelled. *)
Record Call : Type := mkCall {
  c_method : string;
  c_url : string;
  c_params : option pyval;
  c_json : option pyval;
  c_headers : option (gmap string string)
}.

(** An [httpx.Response]: its status, its raw text, and what
    [response.json()] gives ([None] when the text is no JSON document,
    in particular when it is empty, and [json()] raises). *)
Record Response : Type := mkResponse {
  r_status_code : Z;
  r_text : string;
  r_json : option pyval
}.

(** What the transport does with a call: a response, an
    [httpx.TimeoutException], or another [httpx.RequestError]. *)
Inductive TransportOutcome : Type :=
| Responded (r : Response)
| TimedOut (description : string)
| Failed (description : string).

(** ** Stateful computations *)

Record World : Type := mkWorld {
  session : Session;
  sent : list Call;
  ticks : nat
}.

Definition M (A : Type) : Type := World -> Outcome A * World.

Definition ret {A : Type} (a : A) : M A := fun w => (Ret a, w).

Definition raise {A : Type} (e : exn) : M A := fun w => (Raise e, w).

Definition bind {A B : Type} (m : M A) (k : A -> M B) : M B :=
  fun w =>
    match m w with
    | (Ret a, w') => k a w'
    | (Raise e, w') => (Raise e, w')
    end.

#[global] Instance M_ret : MRet M := @ret.
#[global] Instance M_bind : MBind M := fun A B k m => bind m k.

(** Lift a pure computation that may raise. *)
Definition lift {A : Type} (o : Outcome A) : M A := fun w => (o, w).

(** [try: body finally: cleanup], for a cleanup that cannot raise. *)
Definition try_finally {A : Type} (body : M A) (cleanup : Session -> Session) : M A :=
  fun w =>
    let '(o, w') := body w in
    (o, mkWorld (cleanup (session w')) (sent w') (ticks w')).

(** [try: body except ...], the handler deciding what each exception
    becomes. *)
Definition try_except {A : Type} (body : M A) (handler : exn -> M A) : M A :=
  fun w =>
    match body w with
    | (Ret a, w') => (Ret a, w')
    | (Raise e, w') => handler e w'
    end.

Definition get_session : M Session := fun w => (Ret (session w), w).

Definition modify_session (f : Session -> Session) : M unit :=
  fun w => (Ret tt, mkWorld (f (session w)) (sent w) (ticks w)).

(** [obj[k]] with a string key: a [KeyError] on a dict without the key, a
    [TypeError] on every value that is no dict. *)
Definition getitem (obj : pyval) (k : string) : Outcome pyval :=
  match obj with
  | PDict d =>
      match dict_get k d with
      | Some v => Ret v
      | None => Raise (PyKeyError k)
      end
  | _ => Raise PyTypeError
  end.

(** [obj.get(k, default)]: only a dict has the method. *)
Definition py_get (obj : pyval) (k : string) (default : pyval) : Outcome pyval :=
  match obj with
  | PDict d => Ret (get_default d k default)
  | _ => Raise PyAttributeError
  end.

(** [response.json()]. *)
Definition response_json (r : Response) : Outcome pyval :=
  match r_json r with
  | Some v => Ret v
  | None => Raise JSONDecodeError
  end.

(** ** [client.py]: [CRMClient] *)

Section Client.

(** [clock k]: the k-th reading of [datetime.now()]. *)
Variable clock : nat -> datetime.
(** [reply k]: what the transport does with the k-th call. *)
Variable reply : nat -> TransportOutcome.
(** [py_str v]: Python's [str(v)], which an f-string applies to the
    value it interpolates. *)
Variable py_str : pyval -> string.

Definition datetime_now : M datetime :=
  fun w => (Ret (clock (ticks w)), mkWorld (session w) (sent w) (S (ticks w))).

(** A call on the [httpx] client: logged, then answered by the
    transport. *)
Definition client_request (c : Call) : M Response :=
  fun w =>
    let w' := mkWorld (session w) (sent w ++ [c]) (ticks w) in
    match reply (length (sent w)) with
    | Responded r => (Ret r, w')
    | TimedOut d => (Raise (HttpxTimeoutException d), w')
    | Failed d => (Raise (HttpxRequestError d), w')
    end.

Definition _get_headers (s : Session) : gmap string string :=
  let headers : gmap string string :=
    <["Accept" := "application/json"]>
      (<["Content-Type" := "application/json"]> ∅) in
  let headers :=
    match nonempty (api_key s) with
    | Some k => <["X-API-Key" := k]> headers
    | None =>
        if truthy (_access_token s)
        then <["Authorization" := "Bearer " +:+ py_str (_access_token s)]> headers
        else headers
    end in
  match nonempty (tenant_id s) with
  | Some t => <["X-Tenant-ID" := t]> headers
  | None => headers
  end.

Definition _should_refresh_token : M bool :=
  s ← get_session;
  if negb (auto_refresh s) || negb (truthy (_refresh_token s)) then ret false
  else
    match _token_expires_at s with
    | None => ret false
    | Some expires_at =>
        now ← datetime_now;
        threshold ← lift (datetime_sub expires_at five_minutes);
        ret (threshold <=? now)
    end.

Definition refresh_call (s : Session) : Call :=
  mkCall "POST" "/api/v1/auth/refresh" None
         (Some (PDict [("refresh_token", _refresh_token s)])) None.

Definition _refresh_access_token : M unit :=
  s ← get_session;
  if negb (truthy (_refresh_token s)) then
    raise (Sdk (AuthenticationError_init (PStr "No refresh token available") PNone PNone))
  else
    response ← client_request (refresh_call s);
    if negb (r_status_code response =? 200) then
      raise (Sdk (AuthenticationError_init (PStr "Failed to refresh token") PNone PNone))
    else
      data ← lift (response_json response);
      access_token ← lift (getitem data "access_token");
      modify_session (set_access_token access_token);;
      now ← datetime_now;
      expires_in ← lift (py_get data "expires_in" (PInt 3600));
      delta ← lift (timedelta_seconds expires_in);
      expires_at ← lift (datetime_add now delta);
      modify_session (set_token_expires_at (Some expires_at)).

(** Lines 178-179 of [request]: the refresh made before the call. *)
Definition refresh_if_needed : M unit :=
  b ← _should_refresh_token;
  if (b : bool) then _refresh_access_token else ret tt.

(** The body decoded for a status of 400 and above: the JSON document,
    or [{"error": response.text}] when there is none. *)
Definition error_data_of (response : Response) : pyval :=
  match r_json response with
  | Some v => v
  | None => PDict [("error", PStr (r_text response))]
  end.

(** Lines 181-202 of [request]: the call itself, the mapping of what
    the transport raises, and the check of the status. *)
Definition send_and_check (method path : string) (params json : option pyval)
  : M Response :=
  s ← get_session;
  response ←
    try_except
      (client_request (mkCall method path params json (Some (_get_headers s))))
      (fun e =>
         match e with
         | HttpxTimeoutException d =>
             raise (Sdk (TimeoutError_init ("Request timed out: " +:+ d) (timeout s)))
         | HttpxRequestError d =>
             raise (Sdk (NetworkError_init ("Network error: " +:+ d) d))
         | _ => raise e
         end);
  if 400 <=? r_status_code response then
    raise (fst (raise_for_status (r_status_code response) (error_data_of response)))
  else ret response.

Definition request (method path : string) (params json : option pyval) : M Response :=
  refresh_if_needed;;
  send_and_check method path params json.

Definition get (path : string) (params : option pyval) : M pyval :=
  response ← request "GET" path params None;
  lift (response_json response).

Definition post (path : string) (json : option pyval) : M pyval :=
  response ← request "POST" path None json;
  lift (response_json response).

Definition put (path : string) (json : option pyval) : M pyval :=
  response ← request "PUT" path None json;
  lift (response_json response).

Definition delete (path : string) : M unit :=
  request "DELETE" path None None;; ret tt.

End Client.

(** ** [models.py]: the pagination container *)

Record PaginatedResponse (T : Type) : Type := mkPaginatedResponse {
  data : list T;
  total : Z;
  page : Z;
  per_page : Z;
  total_pages : Z
}.
Arguments mkPaginatedResponse {T} _ _ _ _ _.
Arguments data {T} _.
Arguments total {T} _.
Arguments page {T} _.
Arguments per_page {T} _.
Arguments total_pages {T} _.

Definition has_next {T : Type} (r : PaginatedResponse T) : bool :=
  page r <? total_pages r.

Definition has_prev {T : Type} (r : PaginatedResponse T) : bool :=
  1 <? page r.

(** [for c in v]: the elements of a list, the keys of a dict, the
    characters of a string; other values are not iterable. *)
Definition py_iter (v : pyval) : Outcome (list pyval) :=
  match v with
  | PList l => Ret l
  | PDict d => Ret (map (fun kv => PStr (fst kv)) d)
  | PStr s => Ret (map (fun c => PStr (String c EmptyString)) (String.list_ascii_of_string s))
  | _ => Raise PyTypeError
  end.

(** A list comprehension whose body may raise: the first failure ends it. *)
Fixpoint comprehension {A B : Type} (f : A -> Outcome B) (l : list A)
  : Outcome (list B) :=
  match l with
  | [] => Ret []
  | x :: l' =>
      match f x with
      | Raise e => Raise e
      | Ret y =>
          match comprehension f l' with
          | Raise e => Raise e
          | Ret ys => Ret (y :: ys)
          end
      end
  end.

(** ** [client.py]: the services *)

Section Services.

Variable clock : nat -> datetime.
Variable reply : nat -> TransportOutcome.
Variable py_str : pyval -> string.

(** The models are Pydantic classes, whose validation is not part of
    the SDK's sources: [validate_int v] is what Pydantic makes of [v]
    for a field declared [int] ([None] when it rejects [v]), and
    [LoginResponse_new d], [Customer_new d] stand for the construction
    of a [LoginResponse] and of a [Customer] from the keys of [d]. *)
Variable validate_int : pyval -> option Z.
Variable LoginResponse : Type.
Variable LoginResponse_new : pyval -> Outcome LoginResponse.
Variable Customer : Type.
Variable Customer_new : pyval -> Outcome Customer.

(** [PaginatedResponse[T](data=..., total=..., page=..., per_page=...,
    total_pages=...)]: one validation error for whatever fields are
    rejected. *)
Definition PaginatedResponse_new {T : Type} (data : list T)
    (total page per_page total_pages : pyval) : Outcome (PaginatedResponse T) :=
  match validate_int total, validate_int page,
        validate_int per_page, validate_int total_pages with
  | Some t, Some p, Some n, Some tp => Ret (mkPaginatedResponse data t p n tp)
  | _, _, _, _ => Raise PydanticValidationError
  end.

(** The JSON body of the login call. *)
Definition login_json (email password : string) (tenant : option string)
    (s : Session) : pyval :=
  PDict [("email", PStr email);
         ("password", PStr password);
         ("tenant_id", py_of_str (or_str tenant (tenant_id s)))].

(** [AuthService.login]. *)
Definition login (email password : string) (tenant : option string)
  : M LoginResponse :=
  s ← get_session;
  data ← post clock reply py_str "/api/v1/auth/login"
         (Some (login_json email password tenant s));
  access_token ← lift (getitem data "access_token");
  modify_session (set_access_token access_token);;
  refresh_token ← lift (getitem data "refresh_token");
  modify_session (set_refresh_token refresh_token);;
  now ← datetime_now clock;
  expires_in ← lift (py_get data "expires_in" (PInt 3600));
  delta ← lift (timedelta_seconds expires_in);
  expires_at ← lift (datetime_add now delta);
  modify_session (set_token_expires_at (Some expires_at));;
  lift (LoginResponse_new data).

Definition clear_tokens (s : Session) : Session :=
  set_token_expires_at None (set_refresh_token PNone (set_access_token PNone s)).

(** [AuthService.logout]. *)
Definition logout : M unit :=
  try_finally
    (post clock reply py_str "/api/v1/auth/logout" None;; ret tt)
    clear_tokens.

(** The query parameters of [CustomerService.list]. *)
Definition list_params (page per_page : Z) (status search : option string) : pyval :=
  let params := [("page", PInt page); ("per_page", PInt per_page)] in
  let params :=
    match nonempty status with
    | Some st => dict_set "status" (PStr st) params
    | None => params
    end in
  let params :=
    match nonempty search with
    | Some q => dict_set "search" (PStr q) params
    | None => params
    end in
  PDict params.

(** [CustomerService.list]. *)
Definition CustomerService_list (page per_page : Z) (status search : option string)
  : M (PaginatedResponse Customer) :=
  data ← get clock reply py_str "/api/v1/customers"
         (Some (list_params page per_page status search));
  raw ← lift (py_get data "data" (PList []));
  items ← lift (py_iter raw);
  customers ← lift (comprehension Customer_new items);
  total ← lift (py_get data "total" (PInt 0));
  total_pages ← lift (py_get data "total_pages" (PInt 1));
  lift (PaginatedResponse_new customers total (PInt page) (PInt per_page) total_pages).

End Services.

(** ** [client.py]: the other services *)

(** [AuthTokens], the model [AuthService.refresh] returns. *)
Record AuthTokens : Type := mkAuthTokens {
  at_access_token : string;
  at_refresh_token : string;
  at_token_type : string;
  at_expires_in : Z
}.

(** [x or ""]. *)
Definition or_text (v : pyval) : pyval :=
  if truthy v then v else PStr "".

(** [params[name] = value] under [if value:]. *)
Definition filter_param (name : string) (value : option string)
    (params : list (string * pyval)) : list (string * pyval) :=
  match nonempty value with
  | Some v => dict_set name (PStr v) params
  | None => params
  end.

(** [" ".join(parts)]. *)
Fixpoint join_space (parts : list string) : string :=
  match parts with
  | [] => ""
  | [p] => p
  | p :: rest => p +:+ " " +:+ join_space rest
  end.

Section Resources.

Variable clock : nat -> datetime.
Variable reply : nat -> TransportOutcome.
Variable py_str : pyval -> string.

(** Pydantic on a field declared [int], on a field declared [str], and
    the construction of each entity from the keys of a decoded object. *)
Variable validate_int : pyval -> option Z.
Variable validate_str : pyval -> option string.
Variable T : Type.
Variable T_new : pyval -> Outcome T.

(** [CRMError.__str__]: the message, the code in brackets when there is
    one, the status when there is one; [join] accepts strings only. *)
Definition CRMError_str (e : SdkError) : Outcome string :=
  let code_part :=
    if truthy (error_code e) then ["[" +:+ py_str (error_code e) +:+ "]"] else [] in
  let status_part :=
    match status_code e with
    | Some n => if n =? 0 then [] else ["(HTTP " +:+ py_str (PInt n) +:+ ")"]
    | None => []
    end in
  match message e with
  | PStr m => Ret (join_space (m :: code_part ++ status_part))
  | _ => Raise PyTypeError
  end.

Definition AuthTokens_new (access_token refresh_token token_type expires_in : pyval)
  : Outcome AuthTokens :=
  match validate_str access_token, validate_str refresh_token,
        validate_str token_type, validate_int expires_in with
  | Some a, Some r, Some t, Some e => Ret (mkAuthTokens a r t e)
  | _, _, _, _ => Raise PydanticValidationError
  end.

(** [AuthService.refresh]. *)
Definition AuthService_refresh : M AuthTokens :=
  _refresh_access_token clock reply;;
  s ← get_session;
  lift (AuthTokens_new (or_text (_access_token s)) (or_text (_refresh_token s))
                       (PStr "Bearer") (PInt 3600)).

(** [AuthService.register], [T] being [User]. *)
Definition register (email password : string) (first_name last_name tenant : option string)
  : M T :=
  s ← get_session;
  data ← post clock reply py_str "/api/v1/auth/register"
         (Some (PDict [("email", PStr email);
                       ("password", PStr password);
                       ("first_name", py_of_str first_name);
                       ("last_name", py_of_str last_name);
                       ("tenant_id", py_of_str (or_str tenant (tenant_id s)))]));
  lift (T_new data).

(** [AuthService.me], [T] being [User]. *)
Definition me : M T :=
  data ← get clock reply py_str "/api/v1/auth/me" None;
  lift (T_new data).

(** The end of every paginated [list]: the construction of the
    [PaginatedResponse] from the decoded reply and the page asked for. *)
Definition paginated (page per_page : Z) (data : pyval) : M (PaginatedResponse T) :=
  raw ← lift (py_get data "data" (PList []));
  items ← lift (py_iter raw);
  entities ← lift (comprehension T_new items);
  total ← lift (py_get data "total" (PInt 0));
  total_pages ← lift (py_get data "total_pages" (PInt 1));
  lift (PaginatedResponse_new validate_int entities total (PInt page) (PInt per_page)
                              total_pages).

(** [UserService.list], [LeadService.list] and [DealService.list] differ
    in their path and entity only. *)
Definition status_list (path : string) (page per_page : Z) (status : option string)
  : M (PaginatedResponse T) :=
  let params := [("page", PInt page); ("per_page", PInt per_page)] in
  let params := filter_param "status" status params in
  data ← get clock reply py_str path (Some (PDict params));
  paginated page per_page data.

Definition UserService_list := status_list "/api/v1/users".
Definition LeadService_list := status_list "/api/v1/leads".
Definition DealService_list := status_list "/api/v1/deals".

(** [TenantService.list]. *)
Definition TenantService_list (page per_page : Z) : M (PaginatedResponse T) :=
  data ← get clock reply py_str "/api/v1/tenants"
         (Some (PDict [("page", PInt page); ("per_page", PInt per_page)]));
  paginated page per_page data.

(** [OpportunityService.list]. *)
Definition OpportunityService_list (page per_page : Z) (status pipeline_id : option string)
  : M (PaginatedResponse T) :=
  let params := [("page", PInt page); ("per_page", PInt per_page)] in
  let params := filter_param "status" status params in
  let params := filter_param "pipeline_id" pipeline_id params in
  data ← get clock reply py_str "/api/v1/opportunities" (Some (PDict params));
  paginated page per_page data.

(** The end of every list that is not paginated: one entity for each
    element of [data.get("data", [])]. *)
Definition entities_of (data : pyval) : M (list T) :=
  raw ← lift (py_get data "data" (PList []));
  items ← lift (py_iter raw);
  lift (comprehension T_new items).

(** [CustomerService.search]. *)
Definition CustomerService_search (query : string) (limit : Z) : M (list T) :=
  data ← get clock reply py_str "/api/v1/customers/search"
         (Some (PDict [("q", PStr query); ("limit", PInt limit)]));
  entities_of data.

(** [ContactService.list]. *)
Definition ContactService_list (customer_id : string) : M (list T) :=
  data ← get clock reply py_str ("/api/v1/customers/" +:+ customer_id +:+ "/contacts") None;
  entities_of data.

(** [PipelineService.list]. *)
Definition PipelineService_list : M (list T) :=
  data ← get clock reply py_str "/api/v1/pipelines" None;
  entities_of data.

(** [get], [create], [update] and [delete] of a resource family rooted
    at [root] ([/api/v1/customers], [/api/v1/users], ...); the body of a
    create or update is what [model_dump] made of the caller's model. *)
Definition resource_get (root id : string) : M T :=
  data ← get clock reply py_str (root +:+ "/" +:+ id) None;
  lift (T_new data).

Definition resource_create (root : string) (body : pyval) : M T :=
  data ← post clock reply py_str root (Some body);
  lift (T_new data).

Definition resource_update (root id : string) (body : pyval) : M T :=
  data ← put clock reply py_str (root +:+ "/" +:+ id) (Some body);
  lift (T_new data).

Definition resource_delete (root id : string) : M unit :=
  delete clock reply py_str (root +:+ "/" +:+ id).

(** [LeadService.qualify]. *)
Definition LeadService_qualify (lead_id : string) : M T :=
  data ← post clock reply py_str ("/api/v1/leads/" +:+ lead_id +:+ "/qualify") None;
  lift (T_new data).

(** [LeadService.convert] returns the decoded reply as it is. *)
Definition LeadService_convert (lead_id : string) (opportunity_data : pyval) : M pyval :=
  post clock reply py_str ("/api/v1/leads/" +:+ lead_id +:+ "/convert")
       (Some opportunity_data).

(** The body of [OpportunityService.win]:
    [{"reason": reason} if reason else None]. *)
Definition win_json (reason : option string) : option pyval :=
  match nonempty reason with
  | Some r => Some (PDict [("reason", PStr r)])
  | None => None
  end.

(** [OpportunityService.win]. *)
Definition OpportunityService_win (opportunity_id : string) (reason : option string)
  : M T :=
  data ← post clock reply py_str ("/api/v1/opportunities/" +:+ opportunity_id +:+ "/win")
         (win_json reason);
  lift (T_new data).

(** [OpportunityService.lose]. *)
Definition OpportunityService_lose (opportunity_id reason : string) : M T :=
  data ← post clock reply py_str ("/api/v1/opportunities/" +:+ opportunity_id +:+ "/lose")
         (Some (PDict [("reason", PStr reason)]));
  lift (T_new data).

End Resources.

(** * Vocabulary of the properties *)

(** The [details] entry of a body can take the entry a constructor may
    add to it: it is absent, falsy (then a fresh dict is used), or a
    dict. *)
Definition details_writable (body : list (string * pyval)) : Prop :=
  match dict_get "details" body with
  | None => True
  | Some v => truthy v = false \/ exists d, v = PDict d
  end.

(** [at_or_after now e td]: the comparison [now >= e - td] of the
    source, made on datetimes: [e - td] is an instant and [now] is not
    before it. *)
Definition at_or_after (now e : datetime) (td : timedelta) : Prop :=
  exists threshold, datetime_sub e td = Ret threshold /\ threshold <= now.

(** The access token a reply to the refresh call carries: that of a 200
    whose body decodes to an object with an [access_token] key. *)
Definition token_of_reply (t : TransportOutcome) : option pyval :=
  match t with
  | Responded r =>
      if r_status_code r =? 200 then
        match r_json r with
        | Some (PDict d) => dict_get "access_token" d
        | _ => None
        end
      else None
  | _ => None
  end.

(** The seconds of validity such a reply announces, 3600 when it names
    none. *)
Definition expires_in_of_reply (t : TransportOutcome) : pyval :=
  match t with
  | Responded r =>
      match r_json r with
      | Some (PDict d) => get_default d "expires_in" (PInt 3600)
      | _ => PInt 3600
      end
  | _ => PInt 3600
  end.

(** The dict the constructors work on for a body: its [details] when
    that is a truthy dict, an empty one otherwise. *)
Definition body_details (body : list (string * pyval)) : list (string * pyval) :=
  match or_empty_dict (get_default body "details" (PDict [])) with
  | PDict d => d
  | _ => []
  end.

(** A value that is no dict. *)
Definition not_dict (v : pyval) : Prop :=
  match v with
  | PDict _ => False
  | _ => True
  end.

(** A value that is no string. *)
Definition not_str (v : pyval) : Prop :=
  match v with
  | PStr _ => False
  | _ => True
  end.

(** What a list that is not paginated makes of a reply: the empty list
    when [data] is absent; for a [data] that is a list, one entity for
    each element in order, exactly when every element decodes, and
    otherwise the exception of the first element that does not. *)
Definition decodes_data {T : Type} (T_new : pyval -> Outcome T)
    (body : list (string * pyval)) (outcome : Outcome (list T)) : Prop :=
  (dict_get "data" body = None -> outcome = Ret []) /\
  (forall items, dict_get "data" body = Some (PList items) ->
     (forall ys, outcome = Ret ys <-> Forall2 (fun x y => T_new x = Ret y) items ys) /\
     (forall before x after ys e,
        items = before ++ x :: after ->
        Forall2 (fun a y => T_new a = Ret y) before ys ->
        T_new x = Raise e ->
        outcome = Raise e)).

(** Whether the constructor reached for a status writes an entry into
    the details: at 400 for a truthy [errors], at 429 for a truthy
    [retry_after], and for no other status. *)
Definition writes_detail (status_code : Z) (body : list (string * pyval)) : bool :=
  ((status_code =? 400) && truthy (get_default body "errors" PNone))
  || ((status_code =? 429) && truthy (get_default body "retry_after" PNone)).

(** ** Scenarios *)

(** 2026-11-03T12:00:00. *)
Definition noon : datetime := 63929304000000000.

Definition frozen (t : datetime) : nat -> datetime := fun _ => t.

Definition always (t : TransportOutcome) : nat -> TransportOutcome := fun _ => t.

(** [str] on the values the scenarios print, which are strings. *)
Definition str_of_text (v : pyval) : string :=
  match v with
  | PStr s => s
  | _ => ""
  end.

(** Pydantic on an [int] field given an int. *)
Definition int_of_int (v : pyval) : option Z :=
  match v with
  | PInt z => Some z
  | _ => None
  end.

Definition fresh_client : Session :=
  mkSession "https://api.crmplatform.my" None None 30 true PNone PNone None.

(** A client logged in earlier, whose token expires at [expires_at]. *)
Definition logged_in (expires_at : datetime) : Session :=
  mkSession "https://api.crmplatform.my" None None 30 true
            (PStr "old") (PStr "r1") (Some expires_at).

Definition start (s : Session) : World := mkWorld s [] 0.

Definition json_response (status : Z) (text : string) (body : pyval) : Response :=
  mkResponse status text (Some body).

(** A response without a body. *)
Definition empty_response (status : Z) : Response := mkResponse status "" None.

Definition login_reply (expires_in : Z) : Response :=
  json_response 200 "{...}"
    (PDict [("access_token", PStr "a1"); ("refresh_token", PStr "r1");
            ("token_type", PStr "Bearer"); ("expires_in", PInt expires_in);
            ("user", PDict [("id", PStr "u1"); ("email", PStr "a@b.my")])]).

(** A refresh reply whose [expires_in] is [null]. *)
Definition refresh_reply_null_expiry : Response :=
  json_response 200 "{...}"
    (PDict [("access_token", PStr "new"); ("expires_in", PNone)]).

Definition customer_json (id : string) : pyval :=
  PDict [("id", PStr id); ("name", PStr "Batik Sdn Bhd")].

(** The reply of the pagination example: eight items, 18 in total, two
    pages. *)
Definition page_two_reply : Response :=
  json_response 200 "{...}"
    (PDict [("data", PList (map customer_json ["c11"; "c12"; "c13"; "c14";
                                               "c15"; "c16"; "c17"; "c18"]));
            ("total", PInt 18); ("total_pages", PInt 2)]).

Definition validation_body_text_details : pyval :=
  PDict [("details", PStr "see errors");
         ("errors", PDict [("email", PStr "invalid")])].

Definition validation_body_dict_details : pyval :=
  PDict [("details", PDict [("request_id", PStr "q7")]);
         ("errors", PDict [("email", PStr "invalid")])].

(** Pydantic on a [str] field given a string. *)
Definition text_of_str (v : pyval) : option string :=
  match v with
  | PStr s => Some s
  | _ => None
  end.

(** An error body with every entry [raise_for_status] reads. *)
Definition full_error_body : list (string * pyval) :=
  [("error", PStr "quota exceeded"); ("message", PStr "ignored");
   ("code", PStr "E42"); ("details", PDict [("trace", PStr "t-1")]);
   ("errors", PDict [("email", PStr "invalid")]); ("retry_after", PInt 0)].

(** An error body whose [error] entry is an object. *)
Definition structured_error_body : list (string * pyval) :=
  [("error", PDict [("reason", PStr "quota exceeded")])].

(** An error response whose body is a JSON list. *)
Definition list_error_response : Response :=
  json_response 502 "[...]" (PList [PStr "bad gateway"]).

(** A login reply without [refresh_token]. *)
Definition login_body_without_refresh : list (string * pyval) :=
  [("access_token", PStr "a1"); ("expires_in", PInt 3600)].

(** The reply of a search: two customers. *)
Definition search_body : list (string * pyval) :=
  [("data", PList [customer_json "c1"; customer_json "c2"])].

(** The body of the pagination example. *)
Definition page_two_body : list (string * pyval) :=
  [("data", PList (map customer_json ["c11"; "c12"; "c13"; "c14";
                                      "c15"; "c16"; "c17"; "c18"]));
   ("total", PInt 18); ("total_pages", PInt 2)].

(** * Properties *)

(** ** Stepping through a computation *)

Lemma bind_ret {A B : Type} (m : M A) (k : A -> M B) (w w' : World) (a : A) :
  m w = (Ret a, w') -> (m ≫= k) w = k a w'.
Proof. intros H. unfold mbind, M_bind, bind. now rewrite H. Qed.

Lemma bind_raise {A B : Type} (m : M A) (k : A -> M B) (w w' : World) (e : exn) :
  m w = (Raise e, w') -> (m ≫= k) w = (Raise e, w').
Proof. intros H. unfold mbind, M_bind, bind. now rewrite H. Qed.

Ltac unfold_monad :=
  unfold mbind, M_bind, bind, mret, M_ret, ret, raise, lift, get_session,
    modify_session, datetime_now, try_except, try_finally in *.

(** ** Instants *)

Lemma datetime_add_Ret (d : datetime) (td : timedelta) (r : datetime) :
  datetime_add d td = Ret r <-> r = d + td /\ 0 <= d + td <= datetime_max.
Proof.
  unfold datetime_add.
  destruct (0 <=? d + td) eqn:Hlo; destruct (d + td <=? datetime_max) eqn:Hhi; simpl;
    split; try (intros [= <-]); try (intros [-> ?]); try discriminate;
    try (split; [reflexivity | lia]); try reflexivity; lia.
Qed.

Lemma datetime_sub_Ret (d : datetime) (td : timedelta) (r : datetime) :
  datetime_sub d td = Ret r <-> r = d - td /\ 0 <= d - td <= datetime_max.
Proof.
  unfold datetime_sub. rewrite datetime_add_Ret.
  replace (d + - td) with (d - td) by lia. reflexivity.
Qed.

(** ** Session: when a refresh is due *)

(** The decision follows the state alone: the clock is read only when an
    expiry is recorded and a refresh token is held. *)
Lemma should_refresh_token_cases clock (w : World) :
  fst (_should_refresh_token clock w) =
    if negb (auto_refresh (session w)) || negb (truthy (_refresh_token (session w)))
    then Ret false
    else match _token_expires_at (session w) with
         | None => Ret false
         | Some e =>
             match datetime_sub e five_minutes with
             | Ret threshold => Ret (threshold <=? clock (ticks w))
             | Raise x => Raise x
             end
         end.
Proof.
  unfold _should_refresh_token. unfold_monad. simpl.
  destruct (negb (auto_refresh (session w)) || negb (truthy (_refresh_token (session w))));
    [reflexivity |].
  destruct (_token_expires_at (session w)) as [e |]; [| reflexivity].
  simpl. destruct (datetime_sub e five_minutes); reflexivity.
Qed.

(** C1. [_should_refresh_token] returns [True] exactly when [auto_refresh]
    is on, a refresh token is held (a truthy one: neither [None] nor the
    empty string), an expiry is recorded and the current instant is at or
    after the expiry minus five minutes. For a session with [auto_refresh]
    on, a refresh token and its expiry [t] microseconds after the current
    instant, it returns [True] exactly when [t] is at most 300 seconds,
    and [False] otherwise. *)
Theorem should_refresh_token_spec clock (w : World) :
  let s := session w in
  let now := clock (ticks w) in
  (fst (_should_refresh_token clock w) = Ret true <->
     auto_refresh s = true /\
     truthy (_refresh_token s) = true /\
     exists e, _token_expires_at s = Some e /\ at_or_after now e five_minutes)
  /\
  (forall t : Z,
     auto_refresh s = true ->
     truthy (_refresh_token s) = true ->
     _token_expires_at s = Some (now + t) ->
     five_minutes <= now + t <= datetime_max ->
     fst (_should_refresh_token clock w) = Ret (t <=? 300 * 1000000)).
Proof.
  intros s now. rewrite should_refresh_token_cases. fold s. fold now. split.
  - destruct (auto_refresh s); simpl.
    2: { split; [discriminate | intros [? _]; discriminate]. }
    destruct (truthy (_refresh_token s)); simpl.
    2: { split; [discriminate | intros (_ & ? & _); discriminate]. }
    destruct (_token_expires_at s) as [e |].
    2: { split; [discriminate | intros (_ & _ & e & ? & _); discriminate]. }
    unfold at_or_after. split.
    + destruct (datetime_sub e five_minutes) as [th | x] eqn:Hsub; [| discriminate].
      intros [= Hle]. apply Z.leb_le in Hle. repeat split.
      exists e. split; [reflexivity |]. exists th. split; [exact Hsub | exact Hle].
    + intros (_ & _ & e' & [= <-] & th & -> & Hle).
      f_equal. now apply Z.leb_le.
  - intros t -> -> -> Hrange. simpl.
    destruct (datetime_sub (now + t) five_minutes) as [th | x] eqn:Hsub.
    + apply datetime_sub_Ret in Hsub as [-> _]. f_equal.
      unfold five_minutes. destruct (Z.leb_spec (now + t - 5 * 60 * 1000000) now);
        destruct (Z.leb_spec t (300 * 1000000)); try reflexivity; lia.
    + exfalso. unfold datetime_sub, datetime_add in Hsub.
      destruct (0 <=? now + t + - five_minutes) eqn:Hlo;
        destruct (now + t + - five_minutes <=? datetime_max) eqn:Hhi;
        simpl in Hsub; try discriminate; unfold five_minutes in *; lia.
Qed.

(** ** Session: the headers of a request *)

Lemma nonempty_Some (o : option string) (k : string) :
  nonempty o = Some k <-> o = Some k /\ k <> "".
Proof.
  unfold nonempty, truthy_str. destruct o as [s |].
  - destruct (String.eqb_spec s ""); simpl; split.
    + discriminate.
    + intros [[= ->] Hne]. contradiction.
    + intros [= ->]. now split.
    + now intros [-> _].
  - split; [discriminate | now intros [? _]].
Qed.

Lemma nonempty_None (o : option string) :
  nonempty o = None <-> truthy_str o = false.
Proof.
  unfold nonempty. destruct (truthy_str o) eqn:H; [| easy].
  destruct o; [| discriminate]. easy.
Qed.

(** Every lookup in the headers, in one equation. *)
Lemma get_headers_lookup (py_str : pyval -> string) (s : Session) (name : string) :
  _get_headers py_str s !! name =
    if decide (name = "X-Tenant-ID") then nonempty (tenant_id s)
    else if decide (name = "X-API-Key") then nonempty (api_key s)
    else if decide (name = "Authorization") then
      match nonempty (api_key s) with
      | Some _ => None
      | None =>
          if truthy (_access_token s)
          then Some ("Bearer " +:+ py_str (_access_token s)) else None
      end
    else if decide (name = "Accept") then Some "application/json"
    else if decide (name = "Content-Type") then Some "application/json"
    else None.
Proof.
  unfold _get_headers.
  destruct (nonempty (api_key s)) as [k |];
    destruct (truthy (_access_token s));
    destruct (nonempty (tenant_id s)) as [t |];
    repeat (rewrite lookup_insert; case_decide; subst; simpl);
    rewrite ?lookup_empty;
    repeat (case_decide; subst; simpl); try reflexivity; try congruence.
Qed.

(** C9. The headers built for a request always hold [Content-Type] and
    [Accept], both [application/json]; [X-API-Key] exactly when an API
    key is configured (a non-empty one), with that key; [Authorization]
    exactly when no API key is configured and an access token is held (a
    truthy one), with [Bearer ] followed by the token as [str] prints it;
    never both of the two; [X-Tenant-ID] exactly when a tenant id is set
    (a non-empty one); and no other header. The headers are a function of
    the client's attributes, which building them leaves as they are. *)
Theorem get_headers_spec (py_str : pyval -> string) (s : Session) :
  let h := _get_headers py_str s in
  h !! "Content-Type" = Some "application/json" /\
  h !! "Accept" = Some "application/json" /\
  (forall k, h !! "X-API-Key" = Some k <-> api_key s = Some k /\ k <> "") /\
  (forall v, h !! "Authorization" = Some v <->
     truthy_str (api_key s) = false /\
     truthy (_access_token s) = true /\
     v = "Bearer " +:+ py_str (_access_token s)) /\
  ~ (is_Some (h !! "X-API-Key") /\ is_Some (h !! "Authorization")) /\
  (forall t, h !! "X-Tenant-ID" = Some t <-> tenant_id s = Some t /\ t <> "") /\
  (forall name, is_Some (h !! name) ->
     name ∈ ["Content-Type"; "Accept"; "X-API-Key"; "Authorization"; "X-Tenant-ID"]).
Proof.
  intros h. subst h.
  split; [now rewrite get_headers_lookup |].
  split; [now rewrite get_headers_lookup |].
  split; [intros k; rewrite get_headers_lookup; simpl; apply nonempty_Some |].
  split.
  { intros v. rewrite get_headers_lookup. simpl.
    rewrite <- nonempty_None.
    destruct (nonempty (api_key s)); [split; [discriminate | now intros [? _]] |].
    destruct (truthy (_access_token s)); split.
    - intros [= <-]. now repeat split.
    - now intros (_ & _ & ->).
    - discriminate.
    - now intros (_ & ? & _). }
  split.
  { rewrite !get_headers_lookup. simpl.
    intros [[k Hk] [v Hv]]. rewrite Hk in Hv. discriminate. }
  split; [intros t; rewrite get_headers_lookup; simpl; apply nonempty_Some |].
  intros name [v Hv]. rewrite get_headers_lookup in Hv.
  repeat (case_decide; [subst; set_solver |]). discriminate.
Qed.

(** ** ErrorTaxonomy: [raise_for_status] *)

Lemma dict_set_same {V : Type} (k : string) (v : V) (d : list (string * V)) :
  dict_get k d = Some v -> dict_set k v d = d.
Proof.
  induction d as [| [k' v'] d IH]; simpl; [discriminate |].
  destruct (String.eqb_spec k k') as [-> | Hne].
  - now intros [= ->].
  - intros H. now rewrite IH.
Qed.

Lemma or_empty_dict_writable (body : list (string * pyval)) :
  details_writable body ->
  exists d, or_empty_dict (get_default body "details" (PDict [])) = PDict d.
Proof.
  unfold details_writable, get_default, or_empty_dict.
  destruct (dict_get "details" body) as [v |].
  - intros [Hf | [d ->]].
    + rewrite Hf. now exists [].
    + destruct (truthy (PDict d)); [now exists d | now exists []].
  - intros _. now exists [].
Qed.

Lemma write_detail_writable c msg st code (body : list (string * pyval)) key v cond finish :
  details_writable body ->
  (forall e, cls (finish e) = cls e) ->
  exists e,
    fst (write_detail c msg st code (get_default body "details" (PDict [])) key v cond finish)
      = Ret e /\ cls e = c.
Proof.
  intros Hw Hfin. unfold write_detail.
  destruct (or_empty_dict_writable body Hw) as [d ->].
  destruct cond; simpl; eexists; (split; [reflexivity |]); now rewrite Hfin.
Qed.

Lemma write_detail_falsy c msg st code details key v cond finish :
  truthy details = false ->
  snd (write_detail c msg st code details key v cond finish) = details.
Proof.
  intros Hf. unfold write_detail, or_empty_dict. rewrite Hf. simpl.
  now destruct cond.
Qed.

(** A body whose [details] is absent or falsy is left as it was: the
    constructors then write into a dict of their own. *)
Lemma raise_for_status_unchanged (status_code : Z) (body : list (string * pyval)) :
  truthy (get_default body "details" (PDict [])) = false ->
  snd (raise_for_status status_code (PDict body)) = PDict body.
Proof.
  intros Hf. unfold raise_for_status.
  assert (Hafter :
    match dict_get "details" body with
    | Some _ => PDict (dict_set "details" (get_default body "details" (PDict [])) body)
    | None => PDict body
    end = PDict body).
  { unfold get_default. destruct (dict_get "details" body) eqn:E; [| reflexivity].
    now rewrite dict_set_same. }
  destruct (status_code =? 400).
  { unfold ValidationError_init.
    pose proof (write_detail_falsy ValidationError
      (get_default body "error" (get_default body "message" (PStr "Unknown error")))
      (Some 400) "VALIDATION_ERROR" _ "validation_errors"
      (get_default body "errors" PNone) (truthy (get_default body "errors" PNone))
      (fun e => e) Hf) as Hsnd.
    destruct write_detail as [o d']. simpl in *. subst d'. exact Hafter. }
  destruct (status_code =? 401); [reflexivity |].
  destruct (status_code =? 403); [reflexivity |].
  destruct (status_code =? 404); [reflexivity |].
  destruct (status_code =? 409); [reflexivity |].
  destruct (status_code =? 429).
  { unfold RateLimitError_init.
    pose proof (write_detail_falsy RateLimitError
      (get_default body "error" (get_default body "message" (PStr "Unknown error")))
      (Some 429) "RATE_LIMIT_EXCEEDED" _ "retry_after"
      (get_default body "retry_after" PNone) (truthy (get_default body "retry_after" PNone))
      (with_retry_after (get_default body "retry_after" PNone)) Hf) as Hsnd.
    destruct write_detail as [o d']. simpl in *. subst d'. exact Hafter. }
  destruct (500 <=? status_code); reflexivity.
Qed.

Lemma details_writable_dict (body : list (string * pyval)) :
  details_writable body <->
  exists d, or_empty_dict (get_default body "details" (PDict [])) = PDict d.
Proof.
  split; [apply or_empty_dict_writable |].
  unfold details_writable, get_default, or_empty_dict.
  destruct (dict_get "details" body) as [v |]; [| easy].
  destruct (truthy v); [intros [d ->]; right; now exists d | now left].
Qed.

(** The three ways a constructor that may write ends: without a write,
    with a write into a dict, with the [TypeError] of a write into
    something else. *)
Lemma write_detail_cases c msg st code details key v cond finish :
  (forall e, cls (finish e) = cls e) ->
  let run := write_detail c msg st code details key v cond finish in
  (cond = false -> (exists e, fst run = Ret e /\ cls e = c) /\ snd run = details) /\
  (forall d, or_empty_dict details = PDict d -> exists e, fst run = Ret e /\ cls e = c) /\
  (cond = true -> (forall d, or_empty_dict details <> PDict d) ->
   fst run = Raise PyTypeError).
Proof.
  intros Hfin run. subst run. unfold write_detail. split; [| split].
  - intros ->. split; [| reflexivity].
    eexists. split; [reflexivity | now rewrite Hfin].
  - intros d ->. destruct cond; simpl; eexists; (split; [reflexivity | now rewrite Hfin]).
  - intros -> Hnot. destruct (or_empty_dict details) as [| | | | |d]; try reflexivity.
    now destruct (Hnot d).
Qed.

Lemma writes_detail_other (status_code : Z) (body : list (string * pyval)) :
  status_code <> 400 -> status_code <> 429 -> writes_detail status_code body = false.
Proof.
  intros H400 H429. unfold writes_detail.
  destruct (Z.eqb_spec status_code 400); [contradiction |].
  destruct (Z.eqb_spec status_code 429); [contradiction | reflexivity].
Qed.

(** What [raise_for_status] does at the two statuses whose constructor
    may write, told by whether it writes. *)
Lemma raise_for_status_writing (status_code : Z) (body : list (string * pyval)) :
  status_code = 400 \/ status_code = 429 ->
  let run := raise_for_status status_code (PDict body) in
  (writes_detail status_code body = false ->
   (exists e, fst run = Sdk e /\ cls e = class_of_status status_code) /\
   snd run = PDict body) /\
  (details_writable body ->
   exists e, fst run = Sdk e /\ cls e = class_of_status status_code) /\
  (writes_detail status_code body = true -> ~ details_writable body ->
   fst run = PyTypeError).
Proof.
  intros Hst run. subst run.
  assert (Hafter :
    match dict_get "details" body with
    | Some _ => PDict (dict_set "details" (get_default body "details" (PDict [])) body)
    | None => PDict body
    end = PDict body).
  { unfold get_default. destruct (dict_get "details" body) eqn:E; [| reflexivity].
    now rewrite dict_set_same. }
  rewrite details_writable_dict.
  unfold raise_for_status, class_of_status, writes_detail.
  destruct Hst as [-> | ->]; simpl.
  - unfold ValidationError_init.
    destruct (write_detail_cases ValidationError
      (get_default body "error" (get_default body "message" (PStr "Unknown error")))
      (Some 400) "VALIDATION_ERROR" (get_default body "details" (PDict []))
      "validation_errors" (get_default body "errors" PNone)
      (truthy (get_default body "errors" PNone)) (fun e => e) ltac:(reflexivity))
      as (Hquiet & Hdict & Hfail).
    destruct write_detail as [o d']. simpl in *.
    rewrite orb_false_r. split; [| split].
    + intros Hc. destruct (Hquiet Hc) as [(e & -> & He) ->].
      split; [now exists e | exact Hafter].
    + intros [d Hd]. destruct (Hdict d Hd) as (e & -> & He). now exists e.
    + intros Hc Hnot. rewrite Hfail; [reflexivity | exact Hc |].
      intros d Hd. apply Hnot. now exists d.
  - unfold RateLimitError_init.
    destruct (write_detail_cases RateLimitError
      (get_default body "error" (get_default body "message" (PStr "Unknown error")))
      (Some 429) "RATE_LIMIT_EXCEEDED" (get_default body "details" (PDict []))
      "retry_after" (get_default body "retry_after" PNone)
      (truthy (get_default body "retry_after" PNone))
      (with_retry_after (get_default body "retry_after" PNone)) ltac:(reflexivity))
      as (Hquiet & Hdict & Hfail).
    destruct write_detail as [o d']. simpl in *. split; [| split].
    + intros Hc. destruct (Hquiet Hc) as [(e & -> & He) ->].
      split; [now exists e | exact Hafter].
    + intros [d Hd]. destruct (Hdict d Hd) as (e & -> & He). now exists e.
    + intros Hc Hnot. rewrite Hfail; [reflexivity | exact Hc |].
      intros d Hd. apply Hnot. now exists d.
Qed.

(** At every other status the error is built without a write, whatever
    the body holds. *)
Lemma raise_for_status_not_writing (status_code : Z) (body : list (string * pyval)) :
  status_code <> 400 -> status_code <> 429 ->
  (exists e, fst (raise_for_status status_code (PDict body)) = Sdk e /\
             cls e = class_of_status status_code) /\
  snd (raise_for_status status_code (PDict body)) = PDict body.
Proof.
  intros H400 H429. unfold raise_for_status, class_of_status.
  destruct (Z.eqb_spec status_code 400); [contradiction |].
  destruct (status_code =? 401); [split; [eexists; split |]; reflexivity |].
  destruct (status_code =? 403); [split; [eexists; split |]; reflexivity |].
  destruct (status_code =? 404); [split; [eexists; split |]; reflexivity |].
  destruct (status_code =? 409); [split; [eexists; split |]; reflexivity |].
  destruct (Z.eqb_spec status_code 429); [contradiction |].
  destruct (500 <=? status_code); (split; [eexists; split |]; reflexivity).
Qed.

(** C4, as the code has it. For every status and every decoded body that
    is an object, [raise_for_status] raises exactly one error of the SDK,
    of the class the table gives for the status alone (400 Validation,
    401 Authentication, 403 Authorization, 404 NotFound, 409 Conflict,
    429 RateLimit, 500 and above Server, any other status the base
    class), but for one case: at 400 with a truthy [errors] and at 429
    with a truthy [retry_after], a [details] that is truthy and no object
    cannot take the entry written into it, and then, and only then, a
    [TypeError] is raised instead. The call is a function of its two
    arguments and leaves the body as it was whenever no entry is written
    or the body's [details] is absent or falsy. A 429 with the body
    [{"retry_after": 30}] raises a RateLimit error whose [retry_after]
    is 30. *)
Theorem raise_for_status_spec (status_code : Z) (body : list (string * pyval)) :
  ((writes_detail status_code body = true -> details_writable body) ->
   exists e, fst (raise_for_status status_code (PDict body)) = Sdk e /\
             cls e = class_of_status status_code) /\
  (fst (raise_for_status status_code (PDict body)) = PyTypeError <->
   writes_detail status_code body = true /\ ~ details_writable body) /\
  (writes_detail status_code body = false \/
   truthy (get_default body "details" (PDict [])) = false ->
   snd (raise_for_status status_code (PDict body)) = PDict body) /\
  (exists e, fst (raise_for_status 429 (PDict [("retry_after", PInt 30)])) = Sdk e /\
             cls e = RateLimitError /\ retry_after e = Some (PInt 30)).
Proof.
  assert (Hcases : status_code = 400 \/ status_code = 429 \/
                   (status_code <> 400 /\ status_code <> 429)) by lia.
  split; [| split; [| split]].
  - intros Hw. destruct Hcases as [H | [H | [H400 H429]]].
    + destruct (raise_for_status_writing status_code body (or_introl H))
        as (Hquiet & Hdict & _).
      destruct (writes_detail status_code body) eqn:Hc;
        [apply Hdict; now apply Hw | now apply Hquiet].
    + destruct (raise_for_status_writing status_code body (or_intror H))
        as (Hquiet & Hdict & _).
      destruct (writes_detail status_code body) eqn:Hc;
        [apply Hdict; now apply Hw | now apply Hquiet].
    + apply (raise_for_status_not_writing status_code body H400 H429).
  - assert (Hwriting : status_code = 400 \/ status_code = 429 ->
      (fst (raise_for_status status_code (PDict body)) = PyTypeError <->
       writes_detail status_code body = true /\ ~ details_writable body)).
    { intros H. destruct (raise_for_status_writing status_code body H)
        as (Hquiet & Hdict & Hfail).
      split.
      - intros Herr. destruct (writes_detail status_code body) eqn:Hc.
        + split; [reflexivity |]. intros Hd.
          destruct (Hdict Hd) as (e & He & _). congruence.
        + destruct (Hquiet eq_refl) as [(e & He & _) _]. congruence.
      - intros [Hc Hnot]. now apply Hfail. }
    destruct Hcases as [H | [H | [H400 H429]]];
      [apply Hwriting; now left | apply Hwriting; now right |].
    destruct (raise_for_status_not_writing status_code body H400 H429)
      as [(e & He & _) _].
    rewrite (writes_detail_other status_code body H400 H429).
    split; [congruence | now intros [? _]].
  - intros [Hc | Hf]; [| now apply raise_for_status_unchanged].
    destruct Hcases as [H | [H | [H400 H429]]].
    + now apply (raise_for_status_writing status_code body (or_introl H)).
    + now apply (raise_for_status_writing status_code body (or_intror H)).
    + apply (raise_for_status_not_writing status_code body H400 H429).
  - eexists. repeat split.
Qed.

(** ** TokenRefresher and RequestDispatcher *)

Section Dispatch.

Variable clock : nat -> datetime.
Variable reply : nat -> TransportOutcome.
Variable py_str : pyval -> string.

Lemma should_refresh_token_frame (w : World) :
  session (snd (_should_refresh_token clock w)) = session w /\
  sent (snd (_should_refresh_token clock w)) = sent w.
Proof.
  unfold _should_refresh_token. unfold_monad. simpl.
  destruct (negb (auto_refresh (session w)) || negb (truthy (_refresh_token (session w))));
    [now split |].
  destruct (_token_expires_at (session w)) as [e |]; [| now split].
  simpl. destruct (datetime_sub e five_minutes); now split.
Qed.

(** Without a refresh token nothing is sent and nothing changes. *)
Lemma refresh_without_token (w : World) :
  truthy (_refresh_token (session w)) = false ->
  _refresh_access_token clock reply w =
    (Raise (Sdk (AuthenticationError_init (PStr "No refresh token available") PNone PNone)),
     w).
Proof.
  intros H. unfold _refresh_access_token. unfold_monad. simpl. now rewrite H.
Qed.

(** With one, the refresh call is sent, and nothing else. *)
Lemma refresh_sends_first (w : World) :
  truthy (_refresh_token (session w)) = true ->
  sent (snd (_refresh_access_token clock reply w))
    = sent w ++ [refresh_call (session w)].
Proof.
  intros H. unfold _refresh_access_token, client_request. unfold_monad. simpl.
  rewrite H. simpl.
  destruct (reply (length (sent w))) as [r | d | d]; try reflexivity.
  destruct (negb (r_status_code r =? 200)); [reflexivity |].
  simpl. destruct (response_json r) as [data |]; [| reflexivity].
  destruct (getitem data "access_token"); [| reflexivity]. simpl.
  destruct (py_get data "expires_in" (PInt 3600)) as [v |]; [| reflexivity].
  destruct (timedelta_seconds v) as [delta |]; [| reflexivity].
  destruct (datetime_add (clock (ticks w)) delta); reflexivity.
Qed.

(** A reply that carries no token fails the refresh with the client
    unchanged, and with nothing sent but the refresh call. *)
Lemma refresh_reply_without_token (w : World) :
  truthy (_refresh_token (session w)) = true ->
  token_of_reply (reply (length (sent w))) = None ->
  exists e,
    _refresh_access_token clock reply w =
      (Raise e, mkWorld (session w) (sent w ++ [refresh_call (session w)]) (ticks w)).
Proof.
  intros H Htok. unfold _refresh_access_token, client_request. unfold_monad. simpl.
  rewrite H. simpl. unfold token_of_reply in Htok.
  destruct (reply (length (sent w))) as [r | d | d]; try (eexists; reflexivity).
  destruct (r_status_code r =? 200); simpl; [| eexists; reflexivity].
  unfold response_json. destruct (r_json r) as [data |]; [| eexists; reflexivity].
  destruct data; simpl; try (eexists; reflexivity).
  rewrite Htok. eexists; reflexivity.
Qed.

(** A status other than 200 is an [AuthenticationError]. *)
Lemma refresh_status_not_200 (w : World) (r : Response) :
  truthy (_refresh_token (session w)) = true ->
  reply (length (sent w)) = Responded r ->
  r_status_code r <> 200 ->
  _refresh_access_token clock reply w =
    (Raise (Sdk (AuthenticationError_init (PStr "Failed to refresh token") PNone PNone)),
     mkWorld (session w) (sent w ++ [refresh_call (session w)]) (ticks w)).
Proof.
  intros H Hr Hne. unfold _refresh_access_token, client_request. unfold_monad. simpl.
  rewrite H. simpl. rewrite Hr. simpl.
  destruct (Z.eqb_spec (r_status_code r) 200); [contradiction | reflexivity].
Qed.

(** A reply that carries a token: the token is stored, then the expiry
    is computed, and stored when the computation succeeds. *)
Lemma refresh_reply_with_token (w : World) (tok : pyval) :
  truthy (_refresh_token (session w)) = true ->
  token_of_reply (reply (length (sent w))) = Some tok ->
  let s1 := set_access_token tok (session w) in
  let log := sent w ++ [refresh_call (session w)] in
  _refresh_access_token clock reply w =
    match timedelta_seconds (expires_in_of_reply (reply (length (sent w)))) with
    | Raise e => (Raise e, mkWorld s1 log (S (ticks w)))
    | Ret delta =>
        match datetime_add (clock (ticks w)) delta with
        | Raise e => (Raise e, mkWorld s1 log (S (ticks w)))
        | Ret expires_at =>
            (Ret tt, mkWorld (set_token_expires_at (Some expires_at) s1) log (S (ticks w)))
        end
    end.
Proof.
  intros H Htok. unfold _refresh_access_token, client_request. unfold_monad. simpl.
  rewrite H. simpl. unfold token_of_reply, expires_in_of_reply in *.
  destruct (reply (length (sent w))) as [r | d | d]; try discriminate.
  destruct (r_status_code r =? 200); simpl; [| discriminate].
  unfold response_json. destruct (r_json r) as [data |]; [| discriminate].
  destruct data; try discriminate. simpl. rewrite Htok. simpl.
  destruct (timedelta_seconds (get_default d "expires_in" (PInt 3600))) as [delta |];
    [| reflexivity].
  destruct (datetime_add (clock (ticks w)) delta); reflexivity.
Qed.

(** C2, as the code has it. A refresh answered by a 200 whose body is an
    object with an [access_token], and whose [expires_in] (3600 seconds
    when it names none) added to the instant of the refresh gives a
    datetime, returns with the access token and the expiry both replaced
    from the reply, and with nothing else of the client changed. A
    refresh that fails because no refresh token is held, because the
    transport raises, because the status is not 200 (an
    [AuthenticationError]), or because the body does not decode to an
    object with an [access_token], leaves the whole client as it was. So
    whenever the reply carries no token or carries one with a usable
    [expires_in], either both are replaced together or neither changes;
    and a refresh returns only with both replaced. *)
Theorem refresh_access_token_atomic (w : World) :
  let o := fst (_refresh_access_token clock reply w) in
  let w' := snd (_refresh_access_token clock reply w) in
  let answer := reply (length (sent w)) in
  let now := clock (ticks w) in
  (forall tok delta e,
     truthy (_refresh_token (session w)) = true ->
     token_of_reply answer = Some tok ->
     timedelta_seconds (expires_in_of_reply answer) = Ret delta ->
     datetime_add now delta = Ret e ->
     o = Ret tt /\
     e = now + delta /\
     session w' = set_token_expires_at (Some e) (set_access_token tok (session w)) /\
     _access_token (session w') = tok /\
     _token_expires_at (session w') = Some e) /\
  (truthy (_refresh_token (session w)) = false \/ token_of_reply answer = None ->
   (exists e, o = Raise e) /\ session w' = session w) /\
  (forall r,
     truthy (_refresh_token (session w)) = true ->
     answer = Responded r ->
     r_status_code r <> 200 ->
     o = Raise (Sdk (AuthenticationError_init (PStr "Failed to refresh token") PNone PNone))
     /\ session w' = session w) /\
  (truthy (_refresh_token (session w)) = false \/
   token_of_reply answer = None \/
   (exists delta e, timedelta_seconds (expires_in_of_reply answer) = Ret delta /\
                    datetime_add now delta = Ret e) ->
   ((exists x, o = Raise x) /\
    _access_token (session w') = _access_token (session w) /\
    _token_expires_at (session w') = _token_expires_at (session w)) \/
   (o = Ret tt /\
    exists tok delta,
      token_of_reply answer = Some tok /\
      timedelta_seconds (expires_in_of_reply answer) = Ret delta /\
      _access_token (session w') = tok /\
      _token_expires_at (session w') = Some (now + delta))) /\
  (o = Ret tt ->
   exists tok delta,
     token_of_reply answer = Some tok /\
     timedelta_seconds (expires_in_of_reply answer) = Ret delta /\
     _access_token (session w') = tok /\
     _token_expires_at (session w') = Some (now + delta)).
Proof.
  intros o w' answer now. subst o w' answer now.
  assert (Hgood : forall tok delta e,
    truthy (_refresh_token (session w)) = true ->
    token_of_reply (reply (length (sent w))) = Some tok ->
    timedelta_seconds (expires_in_of_reply (reply (length (sent w)))) = Ret delta ->
    datetime_add (clock (ticks w)) delta = Ret e ->
    fst (_refresh_access_token clock reply w) = Ret tt /\
    e = clock (ticks w) + delta /\
    session (snd (_refresh_access_token clock reply w))
      = set_token_expires_at (Some e) (set_access_token tok (session w)) /\
    _access_token (session (snd (_refresh_access_token clock reply w))) = tok /\
    _token_expires_at (session (snd (_refresh_access_token clock reply w))) = Some e).
  { intros tok delta e Hrt Htok Hd He.
    rewrite (refresh_reply_with_token w tok Hrt Htok), Hd, He.
    apply datetime_add_Ret in He as [-> _]. now repeat split. }
  assert (Hbad :
    truthy (_refresh_token (session w)) = false \/
    token_of_reply (reply (length (sent w))) = None ->
    (exists e, fst (_refresh_access_token clock reply w) = Raise e) /\
    session (snd (_refresh_access_token clock reply w)) = session w).
  { destruct (truthy (_refresh_token (session w))) eqn:Hrt.
    - intros [? | Htok]; [discriminate |].
      destruct (refresh_reply_without_token w Hrt Htok) as [e ->].
      split; [now exists e | reflexivity].
    - intros _. rewrite refresh_without_token by assumption.
      split; [eexists; reflexivity | reflexivity]. }
  split; [exact Hgood |]. split; [exact Hbad |]. split; [| split].
  - intros r Hrt Hr Hne. now rewrite (refresh_status_not_200 w r Hrt Hr Hne).
  - intros Hcase.
    destruct (truthy (_refresh_token (session w))) eqn:Hrt.
    2: { left. destruct (Hbad (or_introl eq_refl)) as [Hx ->]. now split. }
    destruct (token_of_reply (reply (length (sent w)))) as [tok |] eqn:Htok.
    2: { left. destruct (Hbad (or_intror eq_refl)) as [Hx ->]. now split. }
    destruct Hcase as [? | [? | (delta & e & Hd & He)]]; try discriminate.
    right. destruct (Hgood tok delta e eq_refl eq_refl Hd He) as (Ho & -> & _ & Ha & Hexp).
    split; [exact Ho |]. now exists tok, delta.
  - destruct (truthy (_refresh_token (session w))) eqn:Hrt.
    2: { rewrite refresh_without_token by assumption. discriminate. }
    destruct (token_of_reply (reply (length (sent w)))) as [tok |] eqn:Htok.
    2: { destruct (refresh_reply_without_token w Hrt Htok) as [e ->]. discriminate. }
    rewrite (refresh_reply_with_token w tok Hrt Htok).
    destruct (timedelta_seconds _) as [delta |]; [| discriminate].
    destruct (datetime_add (clock (ticks w)) delta) as [e |] eqn:Hadd; [| discriminate].
    intros _. exists tok, delta. apply datetime_add_Ret in Hadd as [-> _].
    now repeat split.
Qed.

(** *** The dispatch, step by step *)

Lemma should_refresh_token_run (w : World) :
  _should_refresh_token clock w =
    (fst (_should_refresh_token clock w), snd (_should_refresh_token clock w)).
Proof. now destruct (_should_refresh_token clock w). Qed.

Lemma should_refresh_token_true (w : World) :
  fst (_should_refresh_token clock w) = Ret true ->
  truthy (_refresh_token (session w)) = true.
Proof.
  rewrite should_refresh_token_cases.
  destruct (auto_refresh (session w)); simpl; [| discriminate].
  now destruct (truthy (_refresh_token (session w))).
Qed.

Lemma request_when_due method path params json (w : World) :
  fst (_should_refresh_token clock w) = Ret true ->
  request clock reply py_str method path params json w =
    match _refresh_access_token clock reply (snd (_should_refresh_token clock w)) with
    | (Ret _, w1) => send_and_check reply py_str method path params json w1
    | (Raise e, w1) => (Raise e, w1)
    end.
Proof.
  intros H. unfold request, refresh_if_needed. unfold mbind, M_bind, bind.
  rewrite should_refresh_token_run, H.
  now destruct (_refresh_access_token clock reply _) as [[[] |] ?].
Qed.

Lemma request_when_not_due method path params json (w : World) :
  fst (_should_refresh_token clock w) = Ret false ->
  request clock reply py_str method path params json w =
    send_and_check reply py_str method path params json
                   (snd (_should_refresh_token clock w)).
Proof.
  intros H. unfold request, refresh_if_needed. unfold mbind, M_bind, bind.
  now rewrite should_refresh_token_run, H.
Qed.

Lemma request_when_check_raises method path params json (w : World) (e : exn) :
  fst (_should_refresh_token clock w) = Raise e ->
  request clock reply py_str method path params json w =
    (Raise e, snd (_should_refresh_token clock w)).
Proof.
  intros H. unfold request, refresh_if_needed. unfold mbind, M_bind, bind.
  now rewrite should_refresh_token_run, H.
Qed.

(** The call itself: what is raised or returned for each thing the
    transport can do, with the client left as it is and the call logged. *)
Lemma send_and_check_run method path params json (w : World) :
  send_and_check reply py_str method path params json w =
    (match reply (length (sent w)) with
     | Responded r =>
         if 400 <=? r_status_code r
         then Raise (fst (raise_for_status (r_status_code r) (error_data_of r)))
         else Ret r
     | TimedOut d =>
         Raise (Sdk (TimeoutError_init ("Request timed out: " +:+ d) (timeout (session w))))
     | Failed d => Raise (Sdk (NetworkError_init ("Network error: " +:+ d) d))
     end,
     mkWorld (session w)
             (sent w ++ [mkCall method path params json
                                (Some (_get_headers py_str (session w)))])
             (ticks w)).
Proof.
  unfold send_and_check, client_request. unfold_monad. simpl.
  destruct (reply (length (sent w))) as [r | d | d]; try reflexivity.
  now destruct (400 <=? r_status_code r).
Qed.



(** Decoding the body of a response does not touch the client. *)
Lemma then_json_frame (m : M Response) (w : World) :
  snd ((response ← m; lift (response_json response)) w) = snd (m w).
Proof.
  unfold_monad. destruct (m w) as [[r | e] w']; reflexivity.
Qed.

(** C10. A dispatch that finds no refresh due leaves the client as it
    was, whatever the outcome: be it through [request] or through [get],
    [post], [put], [delete]. A timeout then raises the SDK's
    [TimeoutError] with the configured timeout, another transport failure
    its [NetworkError], a status of 400 or more what [raise_for_status]
    raises. A dispatch changes the client only when a refresh was due at
    its entry. *)
Theorem dispatch_frame method path params json (w : World) :
  let run := request clock reply py_str method path params json in
  (fst (_should_refresh_token clock w) = Ret false ->
   session (snd (run w)) = session w /\
   session (snd (get clock reply py_str path params w)) = session w /\
   session (snd (post clock reply py_str path json w)) = session w /\
   session (snd (put clock reply py_str path json w)) = session w /\
   session (snd (delete clock reply py_str path w)) = session w /\
   (forall d, reply (length (sent w)) = TimedOut d ->
      fst (run w)
        = Raise (Sdk (TimeoutError_init ("Request timed out: " +:+ d)
                                        (timeout (session w))))) /\
   (forall d, reply (length (sent w)) = Failed d ->
      fst (run w) = Raise (Sdk (NetworkError_init ("Network error: " +:+ d) d))) /\
   (forall r, reply (length (sent w)) = Responded r -> 400 <= r_status_code r ->
      fst (run w)
        = Raise (fst (raise_for_status (r_status_code r) (error_data_of r))))) /\
  (session (snd (run w)) <> session w ->
   fst (_should_refresh_token clock w) = Ret true).
Proof.
  intros run. subst run.
  pose proof (should_refresh_token_frame w) as [Hs Hl].
  assert (Hframe : forall m p q j,
    fst (_should_refresh_token clock w) = Ret false ->
    session (snd (request clock reply py_str m p q j w)) = session w).
  { intros m p q j H. rewrite (request_when_not_due m p q j w H).
    now rewrite send_and_check_run. }
  split.
  - intros H. split; [now apply Hframe |].
    unfold get, post, put. rewrite !then_json_frame.
    split; [now apply Hframe |]. split; [now apply Hframe |].
    split; [now apply Hframe |]. split.
    { unfold delete. unfold_monad.
      pose proof (Hframe "DELETE" path None None H) as Hd.
      now destruct (request clock reply py_str "DELETE" path None None w) as [[r | e] w']. }
    rewrite (request_when_not_due method path params json w H), send_and_check_run.
    rewrite Hs, Hl. simpl. split; [| split].
    + now intros d ->.
    + now intros d ->.
    + intros r -> Hge. now destruct (Z.leb_spec 400 (r_status_code r)); [| lia].
  - intros Hchanged.
    destruct (fst (_should_refresh_token clock w)) as [[] | e] eqn:H; [reflexivity | |].
    + exfalso. apply Hchanged. now apply Hframe.
    + exfalso. apply Hchanged.
      now rewrite (request_when_check_raises method path params json w e H).
Qed.

(** C5, as the code has it. A 404 whose body is empty or otherwise no
    JSON document is classified on the body [{"error": raw text}], and
    [request] raises a [NotFoundError] with status 404, code [NOT_FOUND],
    no details, and the raw text of the response as its message. *)
Theorem request_404_undecodable method path params json (w w1 : World) (r : Response) :
  refresh_if_needed clock reply w = (Ret tt, w1) ->
  reply (length (sent w1)) = Responded r ->
  r_status_code r = 404 ->
  r_json r = None ->
  error_data_of r = PDict [("error", PStr (r_text r))] /\
  fst (request clock reply py_str method path params json w)
    = Raise (Sdk (mkSdkError NotFoundError (PStr (r_text r)) (Some 404)
                             (PStr "NOT_FOUND") (PDict []) None None None)).
Proof.
  intros Hpre Hr Hst Hjson.
  assert (Hdata : error_data_of r = PDict [("error", PStr (r_text r))]).
  { unfold error_data_of. now rewrite Hjson. }
  split; [exact Hdata |].
  unfold request. rewrite (bind_ret _ _ w w1 tt Hpre).
  rewrite send_and_check_run, Hr, Hst, Hdata. reflexivity.
Qed.

End Dispatch.

(** ** The services *)

Section ServiceProperties.

Variable clock : nat -> datetime.
Variable reply : nat -> TransportOutcome.
Variable py_str : pyval -> string.
Variable validate_int : pyval -> option Z.
Variable LoginResponse : Type.
Variable LoginResponse_new : pyval -> Outcome LoginResponse.
Variable Customer : Type.
Variable Customer_new : pyval -> Outcome Customer.

(** C7. Whatever the state of the client and whatever becomes of the
    logout call (a response, an HTTP error, a timeout, a transport
    failure, a refresh that fails before it), once [logout] has returned
    or raised the access token, the refresh token and the expiry are all
    [None]; what the call raised is what [logout] raises. *)
Theorem logout_clears_tokens (w : World) :
  let w' := snd (logout clock reply py_str w) in
  _access_token (session w') = PNone /\
  _refresh_token (session w') = PNone /\
  _token_expires_at (session w') = None /\
  (forall e,
     fst (post clock reply py_str "/api/v1/auth/logout" None w) = Raise e ->
     fst (logout clock reply py_str w) = Raise e).
Proof.
  unfold logout, try_finally. unfold mbind, M_bind, bind. simpl.
  destruct (post clock reply py_str "/api/v1/auth/logout" None w) as [[v | e] w1];
    simpl; repeat split; intros; congruence.
Qed.

(** C8, as the code has it. After a login that returns, whose reply
    announces a validity of more than 300 seconds, a dispatch made at the
    instant of the login finds no refresh due: the first call it sends is
    the one asked for. *)
Theorem login_then_dispatch email password tenant (w w1 w' : World)
    (data : pyval) (lr : LoginResponse) (n : Z) (t0 : datetime)
    method path params json :
  (forall k, clock k = t0) ->
  0 <= t0 ->
  post clock reply py_str "/api/v1/auth/login"
       (Some (login_json email password tenant (session w))) w = (Ret data, w1) ->
  login clock reply py_str LoginResponse LoginResponse_new email password tenant w
    = (Ret lr, w') ->
  py_get data "expires_in" (PInt 3600) = Ret (PInt n) ->
  300 < n ->
  fst (_should_refresh_token clock w') = Ret false /\
  sent (snd (request clock reply py_str method path params json w'))
    = sent w' ++ [mkCall method path params json
                         (Some (_get_headers py_str (session w')))].
Proof.
  intros Hclock Ht0 Hpost Hlogin Hexp Hn.
  assert (Hdue : fst (_should_refresh_token clock w') = Ret false).
  { unfold login in Hlogin. unfold_monad. simpl in Hlogin.
    rewrite Hpost in Hlogin.
    destruct (getitem data "access_token") as [tok |]; [| discriminate].
    simpl in Hlogin.
    destruct (getitem data "refresh_token") as [rt |]; [| discriminate].
    simpl in Hlogin. rewrite Hexp in Hlogin. simpl in Hlogin.
    destruct (_ && _) in Hlogin; [| discriminate].
    rewrite Hclock in Hlogin.
    destruct (datetime_add t0 (n * 1000000)) as [e |] eqn:Hadd; [| discriminate].
    destruct (LoginResponse_new data); [| discriminate].
    injection Hlogin as _ <-.
    apply datetime_add_Ret in Hadd as [-> Hrange].
    rewrite should_refresh_token_cases. simpl.
    destruct (negb (auto_refresh (session w1)) || negb (truthy rt)); [reflexivity |].
    rewrite Hclock.
    destruct (datetime_sub (t0 + n * 1000000) five_minutes) as [th | x] eqn:Hsub.
    - apply datetime_sub_Ret in Hsub as [-> _]. f_equal.
      apply Z.leb_gt. unfold five_minutes. lia.
    - exfalso. unfold datetime_sub, datetime_add in Hsub.
      destruct (0 <=? t0 + n * 1000000 + - five_minutes) eqn:Hlo;
        destruct (t0 + n * 1000000 + - five_minutes <=? datetime_max) eqn:Hhi;
        simpl in Hsub; try discriminate; unfold five_minutes in *; lia. }
  split; [exact Hdue |].
  rewrite (request_when_not_due clock reply py_str method path params json w' Hdue).
  rewrite send_and_check_run. simpl.
  destruct (should_refresh_token_frame clock w') as [-> ->]. reflexivity.
Qed.

(** C6. A list call that asks for page [p] with [n] per page, answered
    with an object whose [data] decodes and whose [total] and
    [total_pages] are integers (0 and 1 standing for an absent one),
    returns a result with [page = p] and [per_page = n], the values asked
    for, with [total] and [total_pages] those of the reply, with
    [has_next] equal to [page < total_pages] and [has_prev] to
    [page > 1]. *)
Theorem CustomerService_list_spec (p n : Z) (status search : option string)
    (w w1 : World) (body : list (string * pyval)) (items : list pyval)
    (customers : list Customer) (t tp : Z) :
  (forall z, validate_int (PInt z) = Some z) ->
  get clock reply py_str "/api/v1/customers" (Some (list_params p n status search)) w
    = (Ret (PDict body), w1) ->
  py_iter (get_default body "data" (PList [])) = Ret items ->
  comprehension Customer_new items = Ret customers ->
  get_default body "total" (PInt 0) = PInt t ->
  get_default body "total_pages" (PInt 1) = PInt tp ->
  exists r,
    CustomerService_list clock reply py_str validate_int Customer Customer_new
                         p n status search w = (Ret r, w1) /\
    data r = customers /\
    page r = p /\ per_page r = n /\
    total r = t /\ total_pages r = tp /\
    has_next r = (p <? tp) /\ has_prev r = (1 <? p).
Proof.
  intros Hint Hget Hiter Hdec Htotal Hpages.
  exists (mkPaginatedResponse customers t p n tp).
  split; [| now repeat split].
  unfold CustomerService_list. rewrite (bind_ret _ _ w w1 _ Hget).
  unfold_monad. simpl. rewrite Hiter. simpl. rewrite Hdec. simpl.
  rewrite Htotal, Hpages. unfold PaginatedResponse_new. now rewrite !Hint.
Qed.

End ServiceProperties.

(** * Scenarios checked

    Each property above at a concrete client, clock and transport. *)

(** ** C1 *)

Lemma should_refresh_token_witness :
  fst (_should_refresh_token (frozen noon) (start (logged_in (noon + 300000000))))
    = Ret true.
Proof.
  apply (proj2 (should_refresh_token_spec (frozen noon)
                  (start (logged_in (noon + 300000000)))) 300000000);
    [reflexivity | reflexivity | reflexivity | vm_compute; split; discriminate].
Defined.

(** ** C2 *)

(** The reply [{"access_token": "new", "expires_in": null}] to a refresh:
    the new access token is stored, then the expiry cannot be computed,
    and the old expiry stays next to the new token. *)
Lemma refresh_not_atomic :
  let w := start (logged_in (noon + 60000000)) in
  let run := _refresh_access_token (frozen noon)
               (always (Responded refresh_reply_null_expiry)) w in
  fst run = Raise PyTypeError /\
  _access_token (session (snd run)) = PStr "new" /\
  _access_token (session w) = PStr "old" /\
  _access_token (session (snd run)) <> _access_token (session w) /\
  _token_expires_at (session (snd run)) = _token_expires_at (session w) /\
  ~ (session (snd run) = session w \/ fst run = Ret tt).
Proof.
  vm_compute. repeat split; try discriminate.
  intros [H | H]; discriminate.
Qed.

Lemma refresh_access_token_atomic_witness :
  let w := start (logged_in (noon + 60000000)) in
  let good := _refresh_access_token (frozen noon) (always (Responded (login_reply 3600))) w in
  let bad := _refresh_access_token (frozen noon) (always (Responded (empty_response 503))) w in
  (fst good = Ret tt /\
   noon + 3600000000 = noon + 3600000000 /\
   session (snd good)
     = set_token_expires_at (Some (noon + 3600000000))
                            (set_access_token (PStr "a1") (session w)) /\
   _access_token (session (snd good)) = PStr "a1" /\
   _token_expires_at (session (snd good)) = Some (noon + 3600000000)) /\
  (fst bad
     = Raise (Sdk (AuthenticationError_init (PStr "Failed to refresh token") PNone PNone))
   /\ session (snd bad) = session w).
Proof.
  split.
  - apply (proj1 (refresh_access_token_atomic (frozen noon)
                    (always (Responded (login_reply 3600)))
                    (start (logged_in (noon + 60000000))))
                 (PStr "a1") 3600000000 (noon + 3600000000));
      reflexivity.
  - apply (proj1 (proj2 (proj2 (refresh_access_token_atomic (frozen noon)
                           (always (Responded (empty_response 503)))
                           (start (logged_in (noon + 60000000))))))
                 (empty_response 503));
      [reflexivity | reflexivity | discriminate].
Defined.

(** ** C3 *)


(** ** C4 *)

(** A 400 whose [details] is a string and whose [errors] is not empty:
    the constructor's write into [details] is a [TypeError], which is what
    leaves [raise_for_status]. A 400 whose [details] is a non-empty object:
    the write lands in the body handed in. *)
Lemma raise_for_status_not_total_nor_pure :
  fst (raise_for_status 400 validation_body_text_details) = PyTypeError /\
  snd (raise_for_status 400 validation_body_dict_details)
    = PDict [("details", PDict [("request_id", PStr "q7");
                                ("validation_errors", PDict [("email", PStr "invalid")])]);
             ("errors", PDict [("email", PStr "invalid")])] /\
  snd (raise_for_status 400 validation_body_dict_details) <> validation_body_dict_details.
Proof. vm_compute. repeat split. discriminate. Qed.

Lemma raise_for_status_witness :
  (exists e, fst (raise_for_status 429 (PDict [("retry_after", PInt 30)])) = Sdk e /\
             cls e = class_of_status 429) /\
  (exists e, fst (raise_for_status 401 validation_body_text_details) = Sdk e /\
             cls e = class_of_status 401) /\
  snd (raise_for_status 401 validation_body_text_details) = validation_body_text_details.
Proof.
  split; [| split].
  - apply (proj1 (raise_for_status_spec 429 [("retry_after", PInt 30)])).
    intros _. exact I.
  - apply (proj1 (raise_for_status_spec 401
                    [("details", PStr "see errors");
                     ("errors", PDict [("email", PStr "invalid")])])).
    discriminate.
  - apply (proj1 (proj2 (proj2 (raise_for_status_spec 401
                    [("details", PStr "see errors");
                     ("errors", PDict [("email", PStr "invalid")])])))).
    left. reflexivity.
Defined.

(** ** C5 *)

(** A 404 without a body: the message of the error is the empty text of
    the response, not the default of [NotFoundError]. *)
Lemma request_404_message_not_default :
  exists e,
    fst (request (frozen noon) (always (Responded (empty_response 404))) str_of_text
                 "GET" "/api/v1/customers/c404" None None (start fresh_client))
      = Raise (Sdk e) /\
    cls e = NotFoundError /\
    message e = PStr "" /\
    message e <> PStr "Resource not found".
Proof. eexists. vm_compute. repeat split. discriminate. Qed.

Lemma request_404_undecodable_witness :
  error_data_of (empty_response 404) = PDict [("error", PStr "")] /\
  fst (request (frozen noon) (always (Responded (empty_response 404))) str_of_text
               "GET" "/api/v1/customers/c404" None None (start fresh_client))
    = Raise (Sdk (mkSdkError NotFoundError (PStr "") (Some 404)
                             (PStr "NOT_FOUND") (PDict []) None None None)).
Proof.
  apply (request_404_undecodable (frozen noon) (always (Responded (empty_response 404)))
           str_of_text "GET" "/api/v1/customers/c404" None None
           (start fresh_client) (start fresh_client) (empty_response 404));
    reflexivity.
Defined.

(** ** C6 *)

(** The example of the specification: page 2 with 10 per page, answered
    with eight items, 18 in total, two pages. *)
Lemma CustomerService_list_witness :
  exists r,
    fst (CustomerService_list (frozen noon) (always (Responded page_two_reply))
           str_of_text int_of_int pyval Ret 2 10 None None (start fresh_client))
      = Ret r /\
    length (data r) = 8%nat /\
    page r = 2 /\ per_page r = 10 /\ total r = 18 /\ total_pages r = 2 /\
    has_next r = false /\ has_prev r = true.
Proof.
  destruct (CustomerService_list_spec (frozen noon) (always (Responded page_two_reply))
              str_of_text int_of_int pyval Ret 2 10 None None
              (start fresh_client)
              (snd (get (frozen noon) (always (Responded page_two_reply)) str_of_text
                        "/api/v1/customers" (Some (list_params 2 10 None None))
                        (start fresh_client)))
              [("data", PList (map customer_json ["c11"; "c12"; "c13"; "c14";
                                                  "c15"; "c16"; "c17"; "c18"]));
               ("total", PInt 18); ("total_pages", PInt 2)]
              (map customer_json ["c11"; "c12"; "c13"; "c14";
                                  "c15"; "c16"; "c17"; "c18"])
              (map customer_json ["c11"; "c12"; "c13"; "c14";
                                  "c15"; "c16"; "c17"; "c18"])
              18 2
              ltac:(reflexivity) ltac:(reflexivity) ltac:(reflexivity)
              ltac:(reflexivity) ltac:(reflexivity) ltac:(reflexivity))
    as (r & Hrun & Hdata & Hp & Hn & Ht & Htp & Hnext & Hprev).
  exists r. rewrite Hrun, Hdata. repeat split; assumption.
Defined.

(** ** C7 *)

(** A logout whose call times out. *)
Lemma logout_clears_tokens_witness :
  let run := logout (frozen noon) (always (TimedOut "read timeout")) str_of_text
                    (start (logged_in (noon + 3600000000))) in
  fst run = Raise (Sdk (TimeoutError_init "Request timed out: read timeout" 30)) /\
  _access_token (session (snd run)) = PNone /\
  _refresh_token (session (snd run)) = PNone /\
  _token_expires_at (session (snd run)) = None.
Proof.
  destruct (logout_clears_tokens (frozen noon) (always (TimedOut "read timeout"))
              str_of_text (start (logged_in (noon + 3600000000))))
    as (Ha & Hr & He & Hraise).
  split; [| now repeat split].
  apply Hraise. reflexivity.
Defined.

(** ** C8 *)

(** A login whose reply announces 60 seconds of validity: the dispatch
    that follows at once finds a refresh due and sends the refresh call
    before its own. *)
Lemma login_short_validity_refreshes :
  let net := always (Responded (login_reply 60)) in
  let logged := login (frozen noon) net str_of_text pyval Ret
                      "a@b.my" "secret" None (start fresh_client) in
  (exists lr, fst logged = Ret lr) /\
  fst (_should_refresh_token (frozen noon) (snd logged)) = Ret true /\
  map c_url (sent (snd (request (frozen noon) net str_of_text
                                "GET" "/api/v1/auth/me" None None (snd logged))))
    = ["/api/v1/auth/login"; "/api/v1/auth/refresh"; "/api/v1/auth/me"].
Proof. vm_compute. repeat split. eexists. reflexivity. Qed.

Lemma login_then_dispatch_witness :
  let net := always (Responded (login_reply 3600)) in
  let logged := login (frozen noon) net str_of_text pyval Ret
                      "a@b.my" "secret" None (start fresh_client) in
  fst (_should_refresh_token (frozen noon) (snd logged)) = Ret false /\
  sent (snd (request (frozen noon) net str_of_text
                     "GET" "/api/v1/auth/me" None None (snd logged)))
    = sent (snd logged)
      ++ [mkCall "GET" "/api/v1/auth/me" None None
                 (Some (_get_headers str_of_text (session (snd logged))))].
Proof.
  apply (login_then_dispatch (frozen noon) (always (Responded (login_reply 3600)))
           str_of_text pyval Ret "a@b.my" "secret" None (start fresh_client)
           (snd (post (frozen noon) (always (Responded (login_reply 3600))) str_of_text
                      "/api/v1/auth/login"
                      (Some (login_json "a@b.my" "secret" None fresh_client))
                      (start fresh_client)))
           (snd (login (frozen noon) (always (Responded (login_reply 3600))) str_of_text
                       pyval Ret "a@b.my" "secret" None (start fresh_client)))
           (PDict [("access_token", PStr "a1"); ("refresh_token", PStr "r1");
                   ("token_type", PStr "Bearer"); ("expires_in", PInt 3600);
                   ("user", PDict [("id", PStr "u1"); ("email", PStr "a@b.my")])])
           (PDict [("access_token", PStr "a1"); ("refresh_token", PStr "r1");
                   ("token_type", PStr "Bearer"); ("expires_in", PInt 3600);
                   ("user", PDict [("id", PStr "u1"); ("email", PStr "a@b.my")])])
           3600 noon "GET" "/api/v1/auth/me" None None);
    [reflexivity | discriminate | reflexivity | reflexivity | reflexivity | reflexivity].
Defined.

(** ** C9 *)

(** An API key and an access token together: the key is sent, the token
    is not. *)
Lemma get_headers_witness :
  let s := mkSession "https://api.crmplatform.my" (Some "k-123") (Some "tenant-9") 30 true
                     (PStr "a1") PNone None in
  _get_headers str_of_text s !! "X-API-Key" = Some "k-123" /\
  _get_headers str_of_text s !! "Authorization" = None /\
  _get_headers str_of_text s !! "X-Tenant-ID" = Some "tenant-9".
Proof.
  intros s.
  destruct (get_headers_spec str_of_text s) as (_ & _ & Hkey & Hauth & Hone & Hten & _).
  assert (Hk : _get_headers str_of_text s !! "X-API-Key" = Some "k-123")
    by (apply Hkey; split; [reflexivity | discriminate]).
  split; [exact Hk |]. split.
  - destruct (_get_headers str_of_text s !! "Authorization") as [v |] eqn:Hv;
      [| reflexivity].
    exfalso. apply Hone. split; [now rewrite Hk | now exists v].
  - apply Hten. split; [reflexivity | discriminate].
Defined.

(** ** C10 *)

(** A request that times out with no refresh due. *)
Lemma dispatch_frame_witness :
  let w := start (logged_in (noon + 3600000000)) in
  let run := request (frozen noon) (always (TimedOut "read timeout")) str_of_text
                     "GET" "/api/v1/customers" None None w in
  session (snd run) = session w /\
  fst run = Raise (Sdk (TimeoutError_init "Request timed out: read timeout" 30)).
Proof.
  destruct (proj1 (dispatch_frame (frozen noon) (always (TimedOut "read timeout"))
                     str_of_text "GET" "/api/v1/customers" None None
                     (start (logged_in (noon + 3600000000))))
                  ltac:(reflexivity))
    as (Hreq & _ & _ & _ & _ & Htimeout & _ & _).
  split; [exact Hreq |]. apply (Htimeout "read timeout"). reflexivity.
Defined.

(** * Further properties of the code *)

(** ** Dicts *)

Lemma dict_get_set_eq {V : Type} (k : string) (v : V) (d : list (string * V)) :
  dict_get k (dict_set k v d) = Some v.
Proof.
  induction d as [| [k' v'] d IH]; simpl.
  - now rewrite String.eqb_refl.
  - destruct (String.eqb k k') eqn:E; simpl.
    + now rewrite String.eqb_refl.
    + now rewrite E.
Qed.

Lemma dict_get_set_ne {V : Type} (k k' : string) (v : V) (d : list (string * V)) :
  k <> k' -> dict_get k' (dict_set k v d) = dict_get k' d.
Proof.
  intros Hne. induction d as [| [k0 v0] d IH]; simpl.
  - destruct (String.eqb_spec k' k); [congruence | reflexivity].
  - destruct (String.eqb_spec k k0) as [-> | Hk]; simpl.
    + destruct (String.eqb_spec k' k0); [congruence | reflexivity].
    + destruct (String.eqb_spec k' k0); [reflexivity | exact IH].
Qed.

(** ** [raise_for_status]: the attributes of the error *)

Lemma or_empty_dict_body_details (body : list (string * pyval)) :
  details_writable body ->
  or_empty_dict (get_default body "details" (PDict [])) = PDict (body_details body).
Proof.
  intros Hw. unfold body_details.
  destruct (or_empty_dict_writable body Hw) as [d ->]. reflexivity.
Qed.

Lemma or_empty_dict_dict (d : list (string * pyval)) :
  or_empty_dict (PDict d) = PDict d.
Proof. unfold or_empty_dict. now destruct d. Qed.

Lemma write_detail_run c msg st code (body : list (string * pyval)) key v cond finish :
  details_writable body ->
  fst (write_detail c msg st code (get_default body "details" (PDict [])) key v cond finish)
    = Ret (finish (mkSdkError c msg st (PStr code)
                     (PDict (if cond then dict_set key v (body_details body)
                             else body_details body))
                     None None None)).
Proof.
  intros Hw. unfold write_detail. rewrite (or_empty_dict_body_details body Hw).
  destruct cond; simpl; unfold CRMError_init; now rewrite or_empty_dict_dict.
Qed.

(** The error raised for each status, attribute by attribute. *)
Lemma raise_for_status_run (status : Z) (body : list (string * pyval)) :
  details_writable body ->
  let msg := get_default body "error" (get_default body "message" (PStr "Unknown error")) in
  let code := get_default body "code" PNone in
  let d := PDict (body_details body) in
  fst (raise_for_status status (PDict body)) =
    Sdk (if status =? 400 then
           mkSdkError ValidationError msg (Some 400) (PStr "VALIDATION_ERROR")
             (PDict (if truthy (get_default body "errors" PNone)
                     then dict_set "validation_errors" (get_default body "errors" PNone)
                                   (body_details body)
                     else body_details body)) None None None
         else if status =? 401 then
           mkSdkError AuthenticationError msg (Some 401)
             (or_code code "AUTHENTICATION_ERROR") d None None None
         else if status =? 403 then
           mkSdkError AuthorizationError msg (Some 403)
             (or_code code "AUTHORIZATION_ERROR") d None None None
         else if status =? 404 then
           mkSdkError NotFoundError msg (Some 404) (PStr "NOT_FOUND") d None None None
         else if status =? 409 then
           mkSdkError ConflictError msg (Some 409) (or_code code "CONFLICT") d None None None
         else if status =? 429 then
           mkSdkError RateLimitError msg (Some 429) (PStr "RATE_LIMIT_EXCEEDED")
             (PDict (if truthy (get_default body "retry_after" PNone)
                     then dict_set "retry_after" (get_default body "retry_after" PNone)
                                   (body_details body)
                     else body_details body))
             (Some (get_default body "retry_after" PNone)) None None
         else if 500 <=? status then
           mkSdkError ServerError msg (Some status) (or_code code "SERVER_ERROR") d
                      None None None
         else mkSdkError CRMError msg (Some status) code d None None None).
Proof.
  intros Hw msg code d. subst msg code d. unfold raise_for_status.
  pose proof (or_empty_dict_body_details body Hw) as Hd.
  destruct (status =? 400).
  { unfold ValidationError_init.
    pose proof (write_detail_run ValidationError
      (get_default body "error" (get_default body "message" (PStr "Unknown error")))
      (Some 400) "VALIDATION_ERROR" body "validation_errors"
      (get_default body "errors" PNone) (truthy (get_default body "errors" PNone))
      (fun e => e) Hw) as Hrun.
    destruct write_detail as [o d']. simpl in *. now subst o. }
  destruct (status =? 401).
  { simpl. unfold AuthenticationError_init, CRMError_init. now rewrite Hd. }
  destruct (status =? 403).
  { simpl. unfold AuthorizationError_init, CRMError_init. now rewrite Hd. }
  destruct (status =? 404).
  { simpl. unfold NotFoundError_init, CRMError_init.
    now rewrite Hd, or_empty_dict_dict. }
  destruct (status =? 409).
  { simpl. unfold ConflictError_init, CRMError_init. now rewrite Hd. }
  destruct (status =? 429).
  { unfold RateLimitError_init.
    pose proof (write_detail_run RateLimitError
      (get_default body "error" (get_default body "message" (PStr "Unknown error")))
      (Some 429) "RATE_LIMIT_EXCEEDED" body "retry_after"
      (get_default body "retry_after" PNone) (truthy (get_default body "retry_after" PNone))
      (with_retry_after (get_default body "retry_after" PNone)) Hw) as Hrun.
    destruct write_detail as [o d']. simpl in *. now subst o. }
  destruct (500 <=? status); simpl.
  - unfold ServerError_init, CRMError_init. now rewrite Hd.
  - unfold CRMError_init. now rewrite Hd.
Qed.

Ltac status_cases status :=
  destruct (Z.eqb_spec status 400); [subst |];
  [| destruct (Z.eqb_spec status 401); [subst |];
     [| destruct (Z.eqb_spec status 403); [subst |];
        [| destruct (Z.eqb_spec status 404); [subst |];
           [| destruct (Z.eqb_spec status 409); [subst |];
              [| destruct (Z.eqb_spec status 429); [subst |];
                 [| destruct (Z.leb_spec 500 status)]]]]]].

(** X1. Whatever the status, the error raised for an object body records
    that very status in [status_code]: the fixed one of its class for
    400, 401, 403, 404, 409 and 429, the status handed in for the server
    errors and for the statuses no class covers. *)
Theorem raise_for_status_status_code (status : Z) (body : list (string * pyval)) :
  details_writable body ->
  exists e, fst (raise_for_status status (PDict body)) = Sdk e /\
            status_code e = Some status.
Proof.
  intros Hw. rewrite (raise_for_status_run status body Hw).
  eexists. split; [reflexivity |].
  status_cases status; reflexivity.
Qed.

(** X2. The message of the error is the body's [error] entry whenever the
    key is there, be its value [null] or empty; the [message] entry is
    looked at only when there is no [error] key; "Unknown error" stands
    in when there is neither. *)
Theorem raise_for_status_message (status : Z) (body : list (string * pyval)) :
  details_writable body ->
  exists e, fst (raise_for_status status (PDict body)) = Sdk e /\
    (forall v, dict_get "error" body = Some v -> message e = v) /\
    (forall v, dict_get "error" body = None -> dict_get "message" body = Some v ->
               message e = v) /\
    (dict_get "error" body = None -> dict_get "message" body = None ->
     message e = PStr "Unknown error").
Proof.
  intros Hw. rewrite (raise_for_status_run status body Hw).
  eexists. split; [reflexivity |].
  assert (Hmsg : forall e0 : SdkError,
    message e0 = get_default body "error" (get_default body "message" (PStr "Unknown error")) ->
    (forall v, dict_get "error" body = Some v -> message e0 = v) /\
    (forall v, dict_get "error" body = None -> dict_get "message" body = Some v ->
               message e0 = v) /\
    (dict_get "error" body = None -> dict_get "message" body = None ->
     message e0 = PStr "Unknown error")).
  { intros e0 ->. unfold get_default. repeat split.
    - now intros v ->.
    - now intros v -> ->.
    - now intros -> ->. }
  apply Hmsg. status_cases status; reflexivity.
Qed.

(** X3. The [code] of the body reaches the error for 401, 403, 409 and
    the server errors, where a missing or falsy code gives the default of
    the class, and for the statuses no class covers, where the code is
    kept as it is, [None] when absent. For 400, 404 and 429 the code of
    the body is dropped and the error carries the constant of its class. *)
Theorem raise_for_status_error_code (status : Z) (body : list (string * pyval)) :
  details_writable body ->
  let code := get_default body "code" PNone in
  exists e, fst (raise_for_status status (PDict body)) = Sdk e /\
    (status = 400 -> error_code e = PStr "VALIDATION_ERROR") /\
    (status = 404 -> error_code e = PStr "NOT_FOUND") /\
    (status = 429 -> error_code e = PStr "RATE_LIMIT_EXCEEDED") /\
    (status = 401 -> error_code e = if truthy code then code else PStr "AUTHENTICATION_ERROR") /\
    (status = 403 -> error_code e = if truthy code then code else PStr "AUTHORIZATION_ERROR") /\
    (status = 409 -> error_code e = if truthy code then code else PStr "CONFLICT") /\
    (500 <= status -> error_code e = if truthy code then code else PStr "SERVER_ERROR") /\
    (status < 500 -> ~ In status [400; 401; 403; 404; 409; 429] -> error_code e = code).
Proof.
  intros Hw code. rewrite (raise_for_status_run status body Hw).
  eexists. split; [reflexivity |].
  status_cases status; simpl; repeat split; intros; try lia; try reflexivity;
    try (exfalso; simpl in *; tauto).
Qed.

(** X4. A 400 whose [errors] is truthy carries it in its details under
    [validation_errors], next to every other entry of the body's
    details; a 400 whose [errors] is absent or falsy carries the body's
    details as they are. *)
Theorem raise_for_status_validation_errors (body : list (string * pyval)) :
  details_writable body ->
  let errors := get_default body "errors" PNone in
  exists e d,
    fst (raise_for_status 400 (PDict body)) = Sdk e /\
    details e = PDict d /\
    (truthy errors = true ->
     dict_get "validation_errors" d = Some errors /\
     forall k, k <> "validation_errors" -> dict_get k d = dict_get k (body_details body)) /\
    (truthy errors = false -> d = body_details body).
Proof.
  intros Hw errors. rewrite (raise_for_status_run 400 body Hw). simpl.
  eexists. eexists. split; [reflexivity |]. split; [reflexivity |].
  fold errors. split; intros ->.
  - split; [apply dict_get_set_eq |].
    intros k Hk. apply dict_get_set_ne. congruence.
  - reflexivity.
Qed.

(** X5. A 429 copies the body's [retry_after] into the attribute of the
    error whatever it is: 0 stays 0 and an absent one is [None]. The
    details get a [retry_after] entry only for a truthy value, next to
    the entries of the body's details. No error of another status has the
    attribute. *)
Theorem raise_for_status_retry_after (status : Z) (body : list (string * pyval)) :
  details_writable body ->
  let after := get_default body "retry_after" PNone in
  exists e d,
    fst (raise_for_status status (PDict body)) = Sdk e /\
    details e = PDict d /\
    (status = 429 ->
     retry_after e = Some after /\
     (truthy after = true ->
      dict_get "retry_after" d = Some after /\
      forall k, k <> "retry_after" -> dict_get k d = dict_get k (body_details body)) /\
     (truthy after = false -> d = body_details body)) /\
    (status <> 429 -> retry_after e = None).
Proof.
  intros Hw after. rewrite (raise_for_status_run status body Hw).
  destruct (Z.eqb_spec status 429) as [-> | Hne].
  - simpl. eexists. eexists. split; [reflexivity |]. split; [reflexivity |].
    fold after. split; [| congruence]. intros _. split; [reflexivity |].
    split; intros ->.
    + split; [apply dict_get_set_eq |].
      intros k Hk. apply dict_get_set_ne. congruence.
    + reflexivity.
  - status_cases status; try contradiction;
      (eexists; eexists; split; [reflexivity |]; split; [reflexivity |];
       split; [intros; lia | reflexivity]).
Qed.

(** ** The dispatch, further *)

Section DispatchFurther.

Variable clock : nat -> datetime.
Variable reply : nat -> TransportOutcome.
Variable py_str : pyval -> string.

Lemma raise_for_status_not_dict (status : Z) (v : pyval) :
  not_dict v -> raise_for_status status v = (PyAttributeError, v).
Proof. now destruct v. Qed.

(** X6. An error response whose body is a JSON document but no object (a
    list, a string, a number, [null]) is not classified: with no refresh
    due, [request] raises the [AttributeError] of the [get] that the
    body lacks, and no error of the SDK. *)
Theorem request_error_body_not_object method path params json (w : World)
    (r : Response) (v : pyval) :
  fst (_should_refresh_token clock w) = Ret false ->
  reply (length (sent w)) = Responded r ->
  400 <= r_status_code r ->
  r_json r = Some v ->
  not_dict v ->
  fst (request clock reply py_str method path params json w) = Raise PyAttributeError.
Proof.
  intros Hdue Hr Hst Hjson Hv.
  rewrite (request_when_not_due clock reply py_str method path params json w Hdue).
  rewrite send_and_check_run.
  destruct (should_refresh_token_frame clock w) as [_ ->]. rewrite Hr. simpl.
  destruct (Z.leb_spec 400 (r_status_code r)); [| lia].
  unfold error_data_of. rewrite Hjson. now rewrite raise_for_status_not_dict.
Qed.

(** The three shapes of the client after a refresh. *)
Lemma refresh_session_shape (w : World) :
  let s' := session (snd (_refresh_access_token clock reply w)) in
  s' = session w \/
  (exists tok, s' = set_access_token tok (session w)) \/
  (exists tok e, s' = set_token_expires_at (Some e) (set_access_token tok (session w))).
Proof.
  simpl. destruct (truthy (_refresh_token (session w))) eqn:Hrt.
  2: { rewrite refresh_without_token by assumption. now left. }
  destruct (token_of_reply (reply (length (sent w)))) as [tok |] eqn:Htok.
  2: { destruct (refresh_reply_without_token clock reply w Hrt Htok) as [e ->]. now left. }
  rewrite (refresh_reply_with_token clock reply w tok Hrt Htok).
  destruct (timedelta_seconds _) as [delta |]; [| right; left; now exists tok].
  destruct (datetime_add (clock (ticks w)) delta) as [e |];
    [right; right; now exists tok, e | right; left; now exists tok].
Qed.

(** X7. A refresh, whatever its outcome, leaves the refresh token, the
    API key, the tenant id, the base URL, the timeout and the
    [auto_refresh] switch as they were: the refresh token is never
    rotated, even when the reply carries a new one. *)
Theorem refresh_keeps_refresh_token (w : World) :
  let s' := session (snd (_refresh_access_token clock reply w)) in
  _refresh_token s' = _refresh_token (session w) /\
  api_key s' = api_key (session w) /\
  tenant_id s' = tenant_id (session w) /\
  base_url s' = base_url (session w) /\
  timeout s' = timeout (session w) /\
  auto_refresh s' = auto_refresh (session w).
Proof.
  intros s'. subst s'.
  destruct (refresh_session_shape w) as [-> | [[tok ->] | [tok [e ->]]]];
    now repeat split.
Qed.

(** What the transport raises on the refresh call leaves the refresh as
    it is. *)
Lemma refresh_transport_failure (w : World) :
  truthy (_refresh_token (session w)) = true ->
  let w1 := mkWorld (session w) (sent w ++ [refresh_call (session w)]) (ticks w) in
  (forall d, reply (length (sent w)) = TimedOut d ->
     _refresh_access_token clock reply w = (Raise (HttpxTimeoutException d), w1)) /\
  (forall d, reply (length (sent w)) = Failed d ->
     _refresh_access_token clock reply w = (Raise (HttpxRequestError d), w1)).
Proof.
  intros Hrt w1. subst w1.
  split; intros d Hd; unfold _refresh_access_token, client_request; unfold_monad;
    simpl; rewrite Hrt; simpl; now rewrite Hd.
Qed.

(** X8. The mapping of transport failures covers the call asked for
    only. When a refresh is due and the refresh call itself times out or
    fails to connect, [request] raises the exception of [httpx] as it
    is, not the [TimeoutError] or [NetworkError] of the SDK; the call
    asked for is not sent and the client is unchanged. *)
Theorem request_refresh_transport_failure method path params json (w : World) :
  fst (_should_refresh_token clock w) = Ret true ->
  let result := request clock reply py_str method path params json w in
  (forall d, reply (length (sent w)) = TimedOut d ->
     fst result = Raise (HttpxTimeoutException d) /\
     sent (snd result) = sent w ++ [refresh_call (session w)] /\
     session (snd result) = session w) /\
  (forall d, reply (length (sent w)) = Failed d ->
     fst result = Raise (HttpxRequestError d) /\
     sent (snd result) = sent w ++ [refresh_call (session w)] /\
     session (snd result) = session w).
Proof.
  intros Hdue result. subst result.
  pose proof (should_refresh_token_frame clock w) as [Hs Hl].
  pose proof (should_refresh_token_true clock w Hdue) as Hrt.
  rewrite (request_when_due clock reply py_str method path params json w Hdue).
  set (w0 := snd (_should_refresh_token clock w)) in *.
  assert (Hrt0 : truthy (_refresh_token (session w0)) = true) by now rewrite Hs.
  destruct (refresh_transport_failure w0 Hrt0) as [Ht Hf].
  rewrite Hs, Hl in Ht, Hf.
  split; intros d Hd.
  - rewrite (Ht d Hd). now repeat split.
  - rewrite (Hf d Hd). now repeat split.
Qed.

(** X9. Nothing is retried and nothing else is sent: the calls a
    [request] hands to the transport are the refresh call, at most once,
    and then the call asked for, at most once; with no refresh due it is
    the call asked for alone, whatever comes back. *)
Theorem request_sends_at_most_two method path params json (w : World) :
  let w' := snd (request clock reply py_str method path params json w) in
  (exists s1,
     sent w' = sent w \/
     sent w' = sent w ++ [refresh_call (session w)] \/
     sent w' = sent w ++ [mkCall method path params json
                                 (Some (_get_headers py_str (session w)))] \/
     sent w' = sent w ++ [refresh_call (session w);
                          mkCall method path params json
                                 (Some (_get_headers py_str s1))]) /\
  (fst (_should_refresh_token clock w) = Ret false ->
   sent w' = sent w ++ [mkCall method path params json
                               (Some (_get_headers py_str (session w)))]).
Proof.
  intros w'. subst w'.
  pose proof (should_refresh_token_frame clock w) as [Hs Hl].
  assert (Hnot : fst (_should_refresh_token clock w) = Ret false ->
    sent (snd (request clock reply py_str method path params json w))
      = sent w ++ [mkCall method path params json
                          (Some (_get_headers py_str (session w)))]).
  { intros H. rewrite (request_when_not_due clock reply py_str method path params json w H).
    rewrite send_and_check_run. simpl. now rewrite Hs, Hl. }
  split; [| exact Hnot].
  destruct (fst (_should_refresh_token clock w)) as [[] | e] eqn:Hdue.
  - pose proof (should_refresh_token_true clock w Hdue) as Hrt.
    rewrite (request_when_due clock reply py_str method path params json w Hdue).
    set (w0 := snd (_should_refresh_token clock w)) in *.
    assert (Hrt0 : truthy (_refresh_token (session w0)) = true) by now rewrite Hs.
    pose proof (refresh_sends_first clock reply w0 Hrt0) as Hsent.
    rewrite Hs, Hl in Hsent.
    destruct (_refresh_access_token clock reply w0) as [[[] | x] w1]; simpl in Hsent.
    + exists (session w1). right. right. right.
      rewrite send_and_check_run. simpl. rewrite Hsent, <- app_assoc. reflexivity.
    + exists (session w). right. left. exact Hsent.
  - exists (session w). right. right. left. now apply Hnot.
  - exists (session w). left.
    rewrite (request_when_check_raises clock reply py_str method path params json w e Hdue).
    exact Hl.
Qed.

(** X10. After a refresh made on the way, the call asked for is sent
    with the headers of the refreshed client: without an API key, its
    [Authorization] header is [Bearer ] followed by the access token the
    refresh reply carried, and not the token held at entry. *)
Theorem request_uses_refreshed_token method path params json (w : World) (tok : pyval) :
  fst (_should_refresh_token clock w) = Ret true ->
  token_of_reply (reply (length (sent w))) = Some tok ->
  fst (_refresh_access_token clock reply (snd (_should_refresh_token clock w))) = Ret tt ->
  exists headers,
    sent (snd (request clock reply py_str method path params json w))
      = sent w ++ [refresh_call (session w);
                   mkCall method path params json (Some headers)] /\
    headers !! "Authorization"
      = (if truthy_str (api_key (session w)) then None
         else if truthy tok then Some ("Bearer " +:+ py_str tok) else None).
Proof.
  intros Hdue Htok Hok.
  pose proof (should_refresh_token_frame clock w) as [Hs Hl].
  pose proof (should_refresh_token_true clock w Hdue) as Hrt.
  rewrite (request_when_due clock reply py_str method path params json w Hdue).
  set (w0 := snd (_should_refresh_token clock w)) in *.
  assert (Hrt0 : truthy (_refresh_token (session w0)) = true) by now rewrite Hs.
  assert (Htok0 : token_of_reply (reply (length (sent w0))) = Some tok) by now rewrite Hl.
  rewrite (refresh_reply_with_token clock reply w0 tok Hrt0 Htok0) in *.
  destruct (timedelta_seconds _) as [delta |]; [| discriminate].
  destruct (datetime_add (clock (ticks w0)) delta) as [e |]; [| discriminate].
  rewrite send_and_check_run. simpl. rewrite Hs, Hl, <- app_assoc. simpl.
  eexists. split; [reflexivity |].
  rewrite get_headers_lookup. simpl.
  destruct (nonempty (api_key (session w))) eqn:Hk.
  - apply nonempty_Some in Hk as [Hk Hne]. rewrite Hk. simpl.
    now destruct (String.eqb_spec s "").
  - apply nonempty_None in Hk. now rewrite Hk.
Qed.

(** X11. A response that [request] returns has a status below 400,
    whether or not a refresh was made on the way. *)
Theorem request_returns_below_400 method path params json (w : World) (r : Response) :
  fst (request clock reply py_str method path params json w) = Ret r ->
  r_status_code r < 400.
Proof.
  assert (Hsend : forall w1,
    fst (send_and_check reply py_str method path params json w1) = Ret r ->
    r_status_code r < 400).
  { intros w1. rewrite send_and_check_run. simpl.
    destruct (reply (length (sent w1))) as [r1 | d | d]; try discriminate.
    destruct (Z.leb_spec 400 (r_status_code r1)); [discriminate |].
    now intros [= <-]. }
  destruct (fst (_should_refresh_token clock w)) as [[] | e] eqn:Hdue.
  - rewrite (request_when_due clock reply py_str method path params json w Hdue).
    destruct (_refresh_access_token clock reply _) as [[[] | x] w1];
      [apply Hsend | discriminate].
  - rewrite (request_when_not_due clock reply py_str method path params json w Hdue).
    apply Hsend.
  - now rewrite (request_when_check_raises clock reply py_str method path params json w e Hdue).
Qed.

(** X12. A response below 400 without a JSON body, such as a 204: [get],
    [post] and [put] raise the decoding error of [response.json()],
    while [delete], which does not decode, returns. *)
Theorem verbs_without_body path params json (w : World) (r : Response) :
  fst (_should_refresh_token clock w) = Ret false ->
  reply (length (sent w)) = Responded r ->
  r_status_code r < 400 ->
  r_json r = None ->
  fst (get clock reply py_str path params w) = Raise JSONDecodeError /\
  fst (post clock reply py_str path json w) = Raise JSONDecodeError /\
  fst (put clock reply py_str path json w) = Raise JSONDecodeError /\
  fst (delete clock reply py_str path w) = Ret tt.
Proof.
  intros Hdue Hr Hst Hjson.
  assert (Hreq : forall m q j,
    exists w1, request clock reply py_str m path q j w = (Ret r, w1)).
  { intros m q j. rewrite (request_when_not_due clock reply py_str m path q j w Hdue).
    rewrite send_and_check_run.
    destruct (should_refresh_token_frame clock w) as [_ ->]. rewrite Hr.
    destruct (Z.leb_spec 400 (r_status_code r)); [lia |]. eexists; reflexivity. }
  unfold get, post, put, delete. unfold_monad.
  destruct (Hreq "GET" params None) as [w1 ->].
  destruct (Hreq "POST" None json) as [w2 ->].
  destruct (Hreq "PUT" None json) as [w3 ->].
  destruct (Hreq "DELETE" None None) as [w4 ->].
  unfold response_json. rewrite Hjson. now repeat split.
Qed.

End DispatchFurther.

(** ** The services, further *)

Section ServicesFurther.

Variable clock : nat -> datetime.
Variable reply : nat -> TransportOutcome.
Variable py_str : pyval -> string.
Variable validate_int : pyval -> option Z.
Variable validate_str : pyval -> option string.
Variable T : Type.
Variable T_new : pyval -> Outcome T.
Variable LoginResponse : Type.
Variable LoginResponse_new : pyval -> Outcome LoginResponse.

(** What [login] does once the reply is decoded. *)
Lemma login_run email password tenant (w w1 : World) (data : pyval) :
  post clock reply py_str "/api/v1/auth/login"
       (Some (login_json email password tenant (session w))) w = (Ret data, w1) ->
  login clock reply py_str LoginResponse LoginResponse_new email password tenant w =
    match getitem data "access_token" with
    | Raise x => (Raise x, w1)
    | Ret tok =>
        let s1 := set_access_token tok (session w1) in
        match getitem data "refresh_token" with
        | Raise x => (Raise x, mkWorld s1 (sent w1) (ticks w1))
        | Ret rt =>
            let s2 := set_refresh_token rt s1 in
            let w2 := mkWorld s2 (sent w1) (S (ticks w1)) in
            match py_get data "expires_in" (PInt 3600) with
            | Raise x => (Raise x, w2)
            | Ret v =>
                match timedelta_seconds v with
                | Raise x => (Raise x, w2)
                | Ret delta =>
                    match datetime_add (clock (ticks w1)) delta with
                    | Raise x => (Raise x, w2)
                    | Ret e =>
                        (LoginResponse_new data,
                         mkWorld (set_token_expires_at (Some e) s2) (sent w1)
                                 (S (ticks w1)))
                    end
                end
            end
        end
    end.
Proof.
  intros Hpost. unfold login. unfold_monad. simpl. rewrite Hpost.
  destruct (getitem data "access_token") as [tok |]; [| reflexivity]. simpl.
  destruct (getitem data "refresh_token") as [rt |]; [| reflexivity]. simpl.
  destruct (py_get data "expires_in" (PInt 3600)) as [v |]; [| reflexivity].
  destruct (timedelta_seconds v) as [delta |]; [| reflexivity].
  destruct (datetime_add (clock (ticks w1)) delta) as [e |]; [| reflexivity].
  simpl. now destruct (LoginResponse_new data).
Qed.

(** X13. A login that returns has stored the [access_token] and the
    [refresh_token] of the reply and an expiry of the instant read after
    the reply plus its [expires_in] seconds (3600 when it names none); it
    has sent nothing after the login call, and it leaves the API key, the
    tenant id and the other settings of the client alone. *)
Theorem login_stores_tokens email password tenant (w w1 w' : World)
    (data : pyval) (lr : LoginResponse) :
  post clock reply py_str "/api/v1/auth/login"
       (Some (login_json email password tenant (session w))) w = (Ret data, w1) ->
  login clock reply py_str LoginResponse LoginResponse_new email password tenant w
    = (Ret lr, w') ->
  exists tok rt v delta,
    getitem data "access_token" = Ret tok /\
    getitem data "refresh_token" = Ret rt /\
    py_get data "expires_in" (PInt 3600) = Ret v /\
    timedelta_seconds v = Ret delta /\
    _access_token (session w') = tok /\
    _refresh_token (session w') = rt /\
    _token_expires_at (session w') = Some (clock (ticks w1) + delta) /\
    api_key (session w') = api_key (session w1) /\
    tenant_id (session w') = tenant_id (session w1) /\
    auto_refresh (session w') = auto_refresh (session w1) /\
    sent w' = sent w1.
Proof.
  intros Hpost. rewrite (login_run email password tenant w w1 data Hpost).
  destruct (getitem data "access_token") as [tok |] eqn:Ha; [| discriminate].
  destruct (getitem data "refresh_token") as [rt |] eqn:Hr; [| discriminate].
  destruct (py_get data "expires_in" (PInt 3600)) as [v |] eqn:Hv; [| discriminate].
  destruct (timedelta_seconds v) as [delta |] eqn:Hd; [| discriminate].
  destruct (datetime_add (clock (ticks w1)) delta) as [e |] eqn:Hadd; [| discriminate].
  simpl. intros [= _ <-]. apply datetime_add_Ret in Hadd as [-> _].
  exists tok, rt, v, delta. now repeat split.
Qed.

(** X14. A login that raises after the reply was decoded keeps what it
    stored before: a reply with an [access_token] and no [refresh_token]
    raises the [KeyError] with the new access token next to the old
    refresh token and expiry; a reply that the [LoginResponse] model
    rejects raises with all three credentials already replaced. *)
Theorem login_partial_failure email password tenant (w w1 : World)
    (body : list (string * pyval)) (tok : pyval) :
  post clock reply py_str "/api/v1/auth/login"
       (Some (login_json email password tenant (session w))) w = (Ret (PDict body), w1) ->
  dict_get "access_token" body = Some tok ->
  let run := login clock reply py_str LoginResponse LoginResponse_new
                   email password tenant w in
  (dict_get "refresh_token" body = None ->
   fst run = Raise (PyKeyError "refresh_token") /\
   _access_token (session (snd run)) = tok /\
   _refresh_token (session (snd run)) = _refresh_token (session w1) /\
   _token_expires_at (session (snd run)) = _token_expires_at (session w1)) /\
  (forall rt delta e x,
     dict_get "refresh_token" body = Some rt ->
     timedelta_seconds (get_default body "expires_in" (PInt 3600)) = Ret delta ->
     datetime_add (clock (ticks w1)) delta = Ret e ->
     LoginResponse_new (PDict body) = Raise x ->
     fst run = Raise x /\
     _access_token (session (snd run)) = tok /\
     _refresh_token (session (snd run)) = rt /\
     _token_expires_at (session (snd run)) = Some e).
Proof.
  intros Hpost Htok run. subst run.
  rewrite (login_run email password tenant w w1 _ Hpost). simpl. rewrite Htok.
  split.
  - intros ->. now repeat split.
  - intros rt delta e x -> Hd He Hx. simpl. rewrite Hd, He, Hx. now repeat split.
Qed.

(** X15. [AuthService.refresh] reports a validity of 3600 seconds and the
    token type [Bearer] whatever the reply announced, while the expiry it
    stored follows the reply. *)
Theorem AuthService_refresh_reports_3600 (w : World) (t : AuthTokens) :
  (forall z, validate_int (PInt z) = Some z) ->
  (forall s, validate_str (PStr s) = Some s) ->
  fst (AuthService_refresh clock reply validate_int validate_str w) = Ret t ->
  at_expires_in t = 3600 /\
  at_token_type t = "Bearer" /\
  exists delta,
    timedelta_seconds (expires_in_of_reply (reply (length (sent w)))) = Ret delta /\
    _token_expires_at (session (snd (AuthService_refresh clock reply validate_int
                                                         validate_str w)))
      = Some (clock (ticks w) + delta).
Proof.
  intros Hint Hstr. unfold AuthService_refresh. unfold_monad.
  destruct (truthy (_refresh_token (session w))) eqn:Hrt.
  2: { rewrite refresh_without_token by assumption. discriminate. }
  destruct (token_of_reply (reply (length (sent w)))) as [tok |] eqn:Htok.
  2: { destruct (refresh_reply_without_token clock reply w Hrt Htok) as [e ->].
       discriminate. }
  rewrite (refresh_reply_with_token clock reply w tok Hrt Htok).
  destruct (timedelta_seconds _) as [delta |]; [| discriminate].
  destruct (datetime_add (clock (ticks w)) delta) as [e |] eqn:Hadd; [| discriminate].
  apply datetime_add_Ret in Hadd as [-> _]. simpl.
  unfold AuthTokens_new. rewrite Hint, Hstr.
  destruct (validate_str (or_text tok)); [| discriminate].
  destruct (validate_str (or_text (_refresh_token (session w)))); [| discriminate].
  intros [= <-]. simpl. repeat split. now exists delta.
Qed.

(** X16. The query of [CustomerService.list] always names [page] and
    [per_page]; it names [status] and [search] exactly when they are
    given and not empty, with the value given. *)
Theorem list_params_lookup (p n : Z) (status search : option string) :
  exists params,
    list_params p n status search = PDict params /\
    dict_get "page" params = Some (PInt p) /\
    dict_get "per_page" params = Some (PInt n) /\
    dict_get "status" params = PStr <$> nonempty status /\
    dict_get "search" params = PStr <$> nonempty search.
Proof.
  unfold list_params. eexists. split; [reflexivity |].
  destruct (nonempty status), (nonempty search); simpl; now repeat split.
Qed.

End ServicesFurther.

Section ResourcesFurther.

Variable clock : nat -> datetime.
Variable reply : nat -> TransportOutcome.
Variable py_str : pyval -> string.
Variable validate_int : pyval -> option Z.
Variable T : Type.
Variable T_new : pyval -> Outcome T.


(** With no refresh due, [request] leaves the client as it is. *)
Lemma request_frame method path params json (w : World) :
  fst (_should_refresh_token clock w) = Ret false ->
  session (snd (request clock reply py_str method path params json w)) = session w.
Proof.
  intros Hdue.
  rewrite (request_when_not_due clock reply py_str method path params json w Hdue).
  rewrite send_and_check_run. simpl.
  now destruct (should_refresh_token_frame clock w) as [-> _].
Qed.

(** A continuation that only computes leaves the world to what comes
    before it. *)
Lemma bind_pure_snd {A B : Type} (m : M A) (k : A -> M B) (w : World) :
  (forall a w1, snd (k a w1) = w1) ->
  snd ((m ≫= k) w) = snd (m w).
Proof.
  intros Hk. unfold mbind, M_bind, bind.
  destruct (m w) as [[a | e] w1]; [apply Hk | reflexivity].
Qed.

Lemma bind_get_session {B : Type} (k : Session -> M B) (w : World) :
  (get_session ≫= k) w = k (session w) w.
Proof. reflexivity. Qed.

Lemma lift_snd {A : Type} (o : Outcome A) (w : World) : snd (lift o w) = w.
Proof. reflexivity. Qed.

Lemma entities_of_snd (data : pyval) (w : World) :
  snd (entities_of T T_new data w) = w.
Proof.
  unfold entities_of. unfold_monad.
  destruct (py_get data "data" (PList [])) as [raw |]; [| reflexivity].
  destruct (py_iter raw) as [items |]; [| reflexivity].
  reflexivity.
Qed.

Lemma paginated_snd (p n : Z) (data : pyval) (w : World) :
  snd (paginated validate_int T T_new p n data w) = w.
Proof.
  unfold paginated. unfold_monad.
  destruct (py_get data "data" (PList [])) as [raw |]; [| reflexivity].
  destruct (py_iter raw) as [items |]; [| reflexivity].
  destruct (comprehension T_new items); [| reflexivity].
  destruct (py_get data "total" (PInt 0)); [| reflexivity].
  destruct (py_get data "total_pages" (PInt 1)); reflexivity.
Qed.

Lemma verbs_frame path params json (w : World) :
  fst (_should_refresh_token clock w) = Ret false ->
  session (snd (get clock reply py_str path params w)) = session w /\
  session (snd (post clock reply py_str path json w)) = session w /\
  session (snd (put clock reply py_str path json w)) = session w /\
  session (snd (delete clock reply py_str path w)) = session w.
Proof.
  intros Hdue. unfold get, post, put, delete.
  rewrite !bind_pure_snd by (intros; reflexivity).
  repeat split; now apply request_frame.
Qed.

(** X17. No operation on a resource stores or clears a credential: with
    no refresh due, registering, reading the current user, reading,
    creating, updating and deleting a resource, listing, searching and
    the actions on leads and opportunities all leave the client as it
    was, whether they return or raise. *)
Theorem resource_operations_frame (w : World) :
  fst (_should_refresh_token clock w) = Ret false ->
  (forall email password first last tenant,
     session (snd (register clock reply py_str T T_new email password first last tenant w))
       = session w) /\
  session (snd (me clock reply py_str T T_new w)) = session w /\
  (forall root id,
     session (snd (resource_get clock reply py_str T T_new root id w)) = session w) /\
  (forall root body,
     session (snd (resource_create clock reply py_str T T_new root body w)) = session w) /\
  (forall root id body,
     session (snd (resource_update clock reply py_str T T_new root id body w))
       = session w) /\
  (forall root id,
     session (snd (resource_delete clock reply py_str root id w)) = session w) /\
  (forall path p n status,
     session (snd (status_list clock reply py_str validate_int T T_new path p n status w))
       = session w) /\
  (forall p n,
     session (snd (TenantService_list clock reply py_str validate_int T T_new p n w))
       = session w) /\
  (forall p n status pipeline,
     session (snd (OpportunityService_list clock reply py_str validate_int T T_new
                                           p n status pipeline w)) = session w) /\
  (forall query limit,
     session (snd (CustomerService_search clock reply py_str T T_new query limit w))
       = session w) /\
  (forall id, session (snd (ContactService_list clock reply py_str T T_new id w))
              = session w) /\
  session (snd (PipelineService_list clock reply py_str T T_new w)) = session w /\
  (forall id, session (snd (LeadService_qualify clock reply py_str T T_new id w))
              = session w) /\
  (forall id data, session (snd (LeadService_convert clock reply py_str id data w))
                   = session w) /\
  (forall id reason,
     session (snd (OpportunityService_win clock reply py_str T T_new id reason w))
       = session w) /\
  (forall id reason,
     session (snd (OpportunityService_lose clock reply py_str T T_new id reason w))
       = session w).
Proof.
  intros Hdue.
  assert (Hget : forall path params,
    session (snd (get clock reply py_str path params w)) = session w)
    by (intros path params; apply (verbs_frame path params None w Hdue)).
  assert (Hpost : forall path json,
    session (snd (post clock reply py_str path json w)) = session w)
    by (intros path json; apply (verbs_frame path None json w Hdue)).
  assert (Hput : forall path json,
    session (snd (put clock reply py_str path json w)) = session w)
    by (intros path json; apply (verbs_frame path None json w Hdue)).
  assert (Hdel : forall path,
    session (snd (delete clock reply py_str path w)) = session w)
    by (intros path; apply (verbs_frame path None None w Hdue)).
  unfold register, me, resource_get, resource_create, resource_update, resource_delete,
    status_list, TenantService_list, OpportunityService_list, CustomerService_search,
    ContactService_list, PipelineService_list, LeadService_qualify, LeadService_convert,
    OpportunityService_win, OpportunityService_lose.
  repeat split; intros; rewrite ?bind_get_session;
    rewrite ?bind_pure_snd
      by (intros; first [apply lift_snd | apply entities_of_snd | apply paginated_snd]);
    auto.
Qed.

End ResourcesFurther.

Section ListsFurther.

Variable clock : nat -> datetime.
Variable reply : nat -> TransportOutcome.
Variable py_str : pyval -> string.
Variable validate_int : pyval -> option Z.
Variable T : Type.
Variable T_new : pyval -> Outcome T.

Lemma paginated_run (p n : Z) (body : list (string * pyval)) (items : list pyval)
    (entities : list T) (t tp : Z) (w : World) :
  (forall z, validate_int (PInt z) = Some z) ->
  py_iter (get_default body "data" (PList [])) = Ret items ->
  comprehension T_new items = Ret entities ->
  get_default body "total" (PInt 0) = PInt t ->
  get_default body "total_pages" (PInt 1) = PInt tp ->
  paginated validate_int T T_new p n (PDict body) w
    = (Ret (mkPaginatedResponse entities t p n tp), w).
Proof.
  intros Hint Hiter Hdec Ht Htp. unfold paginated. unfold_monad. simpl.
  rewrite Hiter. simpl. rewrite Hdec. simpl. rewrite Ht, Htp.
  unfold PaginatedResponse_new. now rewrite !Hint.
Qed.

(** X18. The lists of users, leads, deals, tenants and opportunities
    build their page as the list of customers does: from a reply whose
    [data] decodes and whose [total] and [total_pages] are integers (0
    and 1 standing for an absent one), each returns the entities in the
    order of the reply, with [page] and [per_page] those asked for and
    [total] and [total_pages] those of the reply. *)
Theorem paginated_lists_spec (p n : Z) (w w1 : World) (body : list (string * pyval))
    (items : list pyval) (entities : list T) (t tp : Z) :
  (forall z, validate_int (PInt z) = Some z) ->
  py_iter (get_default body "data" (PList [])) = Ret items ->
  comprehension T_new items = Ret entities ->
  get_default body "total" (PInt 0) = PInt t ->
  get_default body "total_pages" (PInt 1) = PInt tp ->
  let result := (Ret (mkPaginatedResponse entities t p n tp), w1) in
  let base := [("page", PInt p); ("per_page", PInt n)] in
  (forall status,
     get clock reply py_str "/api/v1/users" (Some (PDict (filter_param "status" status base))) w
       = (Ret (PDict body), w1) ->
     UserService_list clock reply py_str validate_int T T_new p n status w = result) /\
  (forall status,
     get clock reply py_str "/api/v1/leads" (Some (PDict (filter_param "status" status base))) w
       = (Ret (PDict body), w1) ->
     LeadService_list clock reply py_str validate_int T T_new p n status w = result) /\
  (forall status,
     get clock reply py_str "/api/v1/deals" (Some (PDict (filter_param "status" status base))) w
       = (Ret (PDict body), w1) ->
     DealService_list clock reply py_str validate_int T T_new p n status w = result) /\
  (get clock reply py_str "/api/v1/tenants" (Some (PDict base)) w = (Ret (PDict body), w1) ->
   TenantService_list clock reply py_str validate_int T T_new p n w = result) /\
  (forall status pipeline,
     get clock reply py_str "/api/v1/opportunities"
         (Some (PDict (filter_param "pipeline_id" pipeline
                                    (filter_param "status" status base)))) w
       = (Ret (PDict body), w1) ->
     OpportunityService_list clock reply py_str validate_int T T_new p n status pipeline w
       = result).
Proof.
  intros Hint Hiter Hdec Ht Htp result base. subst result base.
  pose proof (fun w0 => paginated_run p n body items entities t tp w0 Hint Hiter Hdec Ht Htp)
    as Hpage.
  unfold UserService_list, LeadService_list, DealService_list, status_list,
    TenantService_list, OpportunityService_list.
  repeat split; intros; erewrite bind_ret by eassumption; apply Hpage.
Qed.

Lemma comprehension_Ret {A B : Type} (f : A -> Outcome B) (l : list A) (ys : list B) :
  comprehension f l = Ret ys <-> Forall2 (fun x y => f x = Ret y) l ys.
Proof.
  revert ys. induction l as [| x l IH]; intros ys; simpl.
  - split.
    + intros [= <-]. constructor.
    + intros H. now inversion H.
  - destruct (f x) as [y |] eqn:Hx.
    + destruct (comprehension f l) as [zs |] eqn:Hl.
      * split.
        -- intros [= <-]. constructor; [exact Hx | now apply IH].
        -- intros H. inversion H as [| ? y' ? zs' Hy Hrest]; subst.
           rewrite Hx in Hy. injection Hy as <-.
           apply IH in Hrest. now injection Hrest as <-.
      * split; [discriminate |].
        intros H. inversion H as [| ? y' ? zs' Hy Hrest]; subst.
        apply IH in Hrest. discriminate.
    + split; [discriminate |].
      intros H. inversion H as [| ? y' ? zs' Hy Hrest]; subst. congruence.
Qed.

(** The first element that does not decode ends the comprehension with
    its exception. *)
Lemma comprehension_first_failure {A B : Type} (f : A -> Outcome B)
    (before : list A) (x : A) (after : list A) (ys : list B) (e : exn) :
  Forall2 (fun a y => f a = Ret y) before ys ->
  f x = Raise e ->
  comprehension f (before ++ x :: after) = Raise e.
Proof.
  intros Hb Hx. induction Hb as [| a y l l' Ha _ IH]; simpl.
  - now rewrite Hx.
  - now rewrite Ha, IH.
Qed.

(** X19. The lists that are not paginated (the search of customers, the
    contacts of a customer, the pipelines) return one entity for each
    element of the reply's [data], in order, and return exactly when
    every element decodes; the first element that does not decode fails
    the whole call with its exception; a reply without [data] gives the
    empty list. *)
Theorem plain_lists_spec (w w1 : World) (body : list (string * pyval)) :
  (forall query limit,
     get clock reply py_str "/api/v1/customers/search"
         (Some (PDict [("q", PStr query); ("limit", PInt limit)])) w
       = (Ret (PDict body), w1) ->
     decodes_data T_new body
       (fst (CustomerService_search clock reply py_str T T_new query limit w))) /\
  (forall id,
     get clock reply py_str ("/api/v1/customers/" +:+ id +:+ "/contacts") None w
       = (Ret (PDict body), w1) ->
     decodes_data T_new body (fst (ContactService_list clock reply py_str T T_new id w))) /\
  (get clock reply py_str "/api/v1/pipelines" None w = (Ret (PDict body), w1) ->
   decodes_data T_new body (fst (PipelineService_list clock reply py_str T T_new w))).
Proof.
  assert (Hdec : decodes_data T_new body (fst (entities_of T T_new (PDict body) w1))).
  { unfold decodes_data, entities_of. unfold_monad. simpl. unfold get_default.
    split.
    - now intros ->.
    - intros items ->. simpl. split.
      + intros ys. rewrite <- comprehension_Ret.
        now destruct (comprehension T_new items).
      + intros before x after ys e -> Hb Hx.
        now rewrite (comprehension_first_failure T_new before x after ys e Hb Hx). }
  unfold CustomerService_search, ContactService_list, PipelineService_list.
  split; [| split]; intros; erewrite bind_ret by eassumption; exact Hdec.
Qed.

End ListsFurther.

Section MoreEdges.

Variable clock : nat -> datetime.
Variable reply : nat -> TransportOutcome.
Variable py_str : pyval -> string.
Variable validate_int : pyval -> option Z.
Variable Customer : Type.
Variable Customer_new : pyval -> Outcome Customer.

(** X20. A list reply of the wrong shape is not turned into an error of
    the SDK: a reply that is no object raises the [AttributeError] of the
    missing [get]; a [data] that is [null], a boolean or a number raises
    the [TypeError] of iterating it; a [total] that Pydantic rejects
    raises its validation error, after every item was decoded. *)
Theorem CustomerService_list_malformed (p n : Z) (status search : option string)
    (w w1 : World) (v : pyval) :
  get clock reply py_str "/api/v1/customers" (Some (list_params p n status search)) w
    = (Ret v, w1) ->
  let result :=
    fst (CustomerService_list clock reply py_str validate_int Customer Customer_new
                              p n status search w) in
  (not_dict v -> result = Raise PyAttributeError) /\
  (forall body x,
     v = PDict body ->
     dict_get "data" body = Some x ->
     x = PNone \/ (exists b, x = PBool b) \/ (exists z, x = PInt z) ->
     result = Raise PyTypeError) /\
  (forall body items customers,
     v = PDict body ->
     py_iter (get_default body "data" (PList [])) = Ret items ->
     comprehension Customer_new items = Ret customers ->
     validate_int (get_default body "total" (PInt 0)) = None ->
     result = Raise PydanticValidationError).
Proof.
  intros Hget result. subst result. unfold CustomerService_list.
  rewrite (bind_ret _ _ w w1 _ Hget). unfold_monad.
  split; [| split].
  - now destruct v.
  - intros body x -> Hx Hshape. simpl. unfold get_default. rewrite Hx.
    now destruct Hshape as [-> | [[b ->] | [z ->]]].
  - intros body items customers -> Hiter Hdec Htotal. simpl.
    rewrite Hiter. simpl. rewrite Hdec. simpl.
    unfold PaginatedResponse_new. now rewrite Htotal.
Qed.

Lemma append_empty_r (s : string) : s +:+ "" = s.
Proof.
  induction s as [| c s IH]; [reflexivity |].
  change (String c (s +:+ "") = String c s). now f_equal.
Qed.

Lemma join_space_cons (m : string) (parts : list string) :
  exists rest, join_space (m :: parts) = m +:+ rest.
Proof.
  destruct parts as [| p parts].
  - exists "". simpl. now rewrite append_empty_r.
  - now exists (" " +:+ join_space (p :: parts)).
Qed.

(** X21. [str] of an error of the SDK needs a message that is a string:
    it then starts with the message, and is the message alone when the
    error has neither code nor status; with any other message it raises
    the [TypeError] of [join]. So the error raised for a body whose
    [error] entry is an object, a list, a number or [null] cannot be
    printed. *)
Theorem CRMError_str_message (e : SdkError) :
  (forall m, message e = PStr m ->
     (exists rest, CRMError_str py_str e = Ret (m +:+ rest)) /\
     (truthy (error_code e) = false -> status_code e = None ->
      CRMError_str py_str e = Ret m)) /\
  (not_str (message e) -> CRMError_str py_str e = Raise PyTypeError) /\
  (forall status body v,
     details_writable body ->
     dict_get "error" body = Some v ->
     not_str v ->
     fst (raise_for_status status (PDict body)) = Sdk e ->
     CRMError_str py_str e = Raise PyTypeError).
Proof.
  assert (Hnot : not_str (message e) -> CRMError_str py_str e = Raise PyTypeError).
  { unfold CRMError_str. now destruct (message e). }
  split; [| split].
  - intros m Hm. unfold CRMError_str. rewrite Hm. split.
    + destruct (join_space_cons m
        ((if truthy (error_code e) then ["[" +:+ py_str (error_code e) +:+ "]"] else [])
         ++ match status_code e with
            | Some n => if n =? 0 then [] else ["(HTTP " +:+ py_str (PInt n) +:+ ")"]
            | None => []
            end)) as [rest ->].
      now exists rest.
    + now intros -> ->.
  - exact Hnot.
  - intros status body v Hw Hv Hns Hraise. apply Hnot.
    rewrite (raise_for_status_run status body Hw) in Hraise.
    injection Hraise as <-.
    assert (Hmsg : get_default body "error"
                     (get_default body "message" (PStr "Unknown error")) = v)
      by (unfold get_default; now rewrite Hv).
    subst v. status_cases status; simpl; exact Hns.
Qed.

(** X22. Whether a refresh is due right after a refresh: at the instant
    of a refresh that returned, with the validity [delta] its reply
    announced, [_should_refresh_token] answers [auto_refresh] and
    [delta <= 5 minutes]. A server that grants five minutes or less makes
    every dispatch of an auto-refreshing client refresh again. *)
Theorem refresh_then_due (w : World) (t0 : datetime) (delta : timedelta) :
  (forall k, clock k = t0) ->
  five_minutes <= t0 ->
  0 <= delta ->
  fst (_refresh_access_token clock reply w) = Ret tt ->
  timedelta_seconds (expires_in_of_reply (reply (length (sent w)))) = Ret delta ->
  fst (_should_refresh_token clock (snd (_refresh_access_token clock reply w)))
    = Ret (auto_refresh (session w) && (delta <=? five_minutes)).
Proof.
  intros Hclock Ht0 Hdelta Hok Hd.
  destruct (truthy (_refresh_token (session w))) eqn:Hrt.
  2: { rewrite refresh_without_token in Hok by assumption. discriminate. }
  destruct (token_of_reply (reply (length (sent w)))) as [tok |] eqn:Htok.
  2: { destruct (refresh_reply_without_token clock reply w Hrt Htok) as [e He].
       rewrite He in Hok. discriminate. }
  rewrite (refresh_reply_with_token clock reply w tok Hrt Htok) in *.
  rewrite Hd in *. rewrite Hclock in *.
  destruct (datetime_add t0 delta) as [e |] eqn:Hadd; [| discriminate].
  apply datetime_add_Ret in Hadd as [-> Hrange].
  rewrite should_refresh_token_cases. simpl. rewrite Hrt, Hclock.
  destruct (auto_refresh (session w)); simpl; [| reflexivity].
  destruct (datetime_sub (t0 + delta) five_minutes) as [th | x] eqn:Hsub.
  - apply datetime_sub_Ret in Hsub as [-> _]. f_equal.
    destruct (Z.leb_spec (t0 + delta - five_minutes) t0);
      destruct (Z.leb_spec delta five_minutes); try reflexivity; lia.
  - exfalso. unfold datetime_sub, datetime_add in Hsub.
    destruct (0 <=? t0 + delta + - five_minutes) eqn:Hlo;
      destruct (t0 + delta + - five_minutes <=? datetime_max) eqn:Hhi;
      simpl in Hsub; try discriminate; unfold five_minutes in *; lia.
Qed.


End MoreEdges.

(** * Further scenarios checked *)

Lemma raise_for_status_status_code_witness :
  exists e, fst (raise_for_status 503 (PDict full_error_body)) = Sdk e /\
            status_code e = Some 503.
Proof.
  apply raise_for_status_status_code. vm_compute. right. eexists. reflexivity.
Defined.

Lemma raise_for_status_message_witness :
  exists e, fst (raise_for_status 404 (PDict full_error_body)) = Sdk e /\
            message e = PStr "quota exceeded".
Proof.
  destruct (raise_for_status_message 404 full_error_body) as (e & He & Herr & _).
  - vm_compute. right. eexists. reflexivity.
  - exists e. split; [exact He |]. apply Herr. reflexivity.
Defined.

Lemma raise_for_status_error_code_witness :
  exists e, fst (raise_for_status 404 (PDict full_error_body)) = Sdk e /\
            error_code e = PStr "NOT_FOUND".
Proof.
  destruct (raise_for_status_error_code 404 full_error_body) as (e & He & _ & H404 & _).
  - vm_compute. right. eexists. reflexivity.
  - exists e. split; [exact He |]. apply H404. reflexivity.
Defined.

Lemma raise_for_status_validation_errors_witness :
  exists e d,
    fst (raise_for_status 400 (PDict full_error_body)) = Sdk e /\
    details e = PDict d /\
    dict_get "validation_errors" d = Some (PDict [("email", PStr "invalid")]) /\
    dict_get "trace" d = Some (PStr "t-1").
Proof.
  destruct (raise_for_status_validation_errors full_error_body)
    as (e & d & He & Hd & Htruthy & _).
  - vm_compute. right. eexists. reflexivity.
  - exists e, d. split; [exact He |]. split; [exact Hd |].
    destruct (Htruthy ltac:(reflexivity)) as [Hv Hrest].
    split; [exact Hv |]. rewrite Hrest; [reflexivity | discriminate].
Defined.

(** A [retry_after] of 0 reaches the attribute and not the details. *)
Lemma raise_for_status_retry_after_witness :
  exists e d,
    fst (raise_for_status 429 (PDict full_error_body)) = Sdk e /\
    details e = PDict d /\
    retry_after e = Some (PInt 0) /\
    dict_get "retry_after" d = None.
Proof.
  destruct (raise_for_status_retry_after 429 full_error_body)
    as (e & d & He & Hd & H429 & _).
  - vm_compute. right. eexists. reflexivity.
  - exists e, d. split; [exact He |]. split; [exact Hd |].
    destruct (H429 ltac:(reflexivity)) as (Hattr & _ & Hfalsy).
    split; [exact Hattr |]. rewrite (Hfalsy ltac:(reflexivity)). reflexivity.
Defined.

Lemma request_error_body_not_object_witness :
  fst (request (frozen noon) (always (Responded list_error_response)) str_of_text
               "GET" "/api/v1/customers" None None (start fresh_client))
    = Raise PyAttributeError.
Proof.
  apply (request_error_body_not_object (frozen noon)
           (always (Responded list_error_response)) str_of_text
           "GET" "/api/v1/customers" None None (start fresh_client)
           list_error_response (PList [PStr "bad gateway"]));
    [reflexivity | reflexivity | vm_compute; discriminate | reflexivity | exact I].
Defined.

Lemma request_refresh_transport_failure_witness :
  let w := start (logged_in (noon + 60000000)) in
  let result := request (frozen noon) (always (TimedOut "read timeout")) str_of_text
                        "GET" "/api/v1/customers" None None w in
  fst result = Raise (HttpxTimeoutException "read timeout") /\
  sent (snd result) = sent w ++ [refresh_call (session w)] /\
  session (snd result) = session w.
Proof.
  apply (proj1 (request_refresh_transport_failure (frozen noon)
                  (always (TimedOut "read timeout")) str_of_text
                  "GET" "/api/v1/customers" None None
                  (start (logged_in (noon + 60000000))) ltac:(reflexivity))
               "read timeout").
  reflexivity.
Defined.

Lemma request_sends_at_most_two_witness :
  let w := start fresh_client in
  sent (snd (request (frozen noon) (always (Responded (empty_response 503))) str_of_text
                     "GET" "/api/v1/customers" None None w))
    = sent w ++ [mkCall "GET" "/api/v1/customers" None None
                        (Some (_get_headers str_of_text (session w)))].
Proof.
  apply (proj2 (request_sends_at_most_two (frozen noon)
                  (always (Responded (empty_response 503))) str_of_text
                  "GET" "/api/v1/customers" None None (start fresh_client))).
  reflexivity.
Defined.

Lemma request_uses_refreshed_token_witness :
  let w := start (logged_in (noon + 60000000)) in
  exists headers,
    sent (snd (request (frozen noon) (always (Responded (login_reply 3600))) str_of_text
                       "GET" "/api/v1/customers" None None w))
      = sent w ++ [refresh_call (session w);
                   mkCall "GET" "/api/v1/customers" None None (Some headers)] /\
    headers !! "Authorization" = Some "Bearer a1".
Proof.
  apply (request_uses_refreshed_token (frozen noon) (always (Responded (login_reply 3600)))
           str_of_text "GET" "/api/v1/customers" None None
           (start (logged_in (noon + 60000000))) (PStr "a1"));
    reflexivity.
Defined.

Lemma request_returns_below_400_witness :
  r_status_code page_two_reply < 400.
Proof.
  apply (request_returns_below_400 (frozen noon) (always (Responded page_two_reply))
           str_of_text "GET" "/api/v1/customers" None None (start fresh_client)).
  reflexivity.
Defined.

Lemma verbs_without_body_witness :
  let net := always (Responded (empty_response 204)) in
  fst (get (frozen noon) net str_of_text "/api/v1/customers/c1" None (start fresh_client))
    = Raise JSONDecodeError /\
  fst (post (frozen noon) net str_of_text "/api/v1/customers/c1" None (start fresh_client))
    = Raise JSONDecodeError /\
  fst (put (frozen noon) net str_of_text "/api/v1/customers/c1" None (start fresh_client))
    = Raise JSONDecodeError /\
  fst (delete (frozen noon) net str_of_text "/api/v1/customers/c1" (start fresh_client))
    = Ret tt.
Proof.
  apply (verbs_without_body (frozen noon) (always (Responded (empty_response 204)))
           str_of_text "/api/v1/customers/c1" None None (start fresh_client)
           (empty_response 204));
    [reflexivity | reflexivity | vm_compute; reflexivity | reflexivity].
Defined.

Lemma login_stores_tokens_witness :
  let net := always (Responded (login_reply 3600)) in
  let w' := snd (login (frozen noon) net str_of_text pyval Ret
                       "a@b.my" "secret" None (start fresh_client)) in
  exists tok rt v delta,
    getitem (PDict [("access_token", PStr "a1"); ("refresh_token", PStr "r1");
                    ("token_type", PStr "Bearer"); ("expires_in", PInt 3600);
                    ("user", PDict [("id", PStr "u1"); ("email", PStr "a@b.my")])])
            "access_token" = Ret tok /\
    getitem (PDict [("access_token", PStr "a1"); ("refresh_token", PStr "r1");
                    ("token_type", PStr "Bearer"); ("expires_in", PInt 3600);
                    ("user", PDict [("id", PStr "u1"); ("email", PStr "a@b.my")])])
            "refresh_token" = Ret rt /\
    py_get (PDict [("access_token", PStr "a1"); ("refresh_token", PStr "r1");
                   ("token_type", PStr "Bearer"); ("expires_in", PInt 3600);
                   ("user", PDict [("id", PStr "u1"); ("email", PStr "a@b.my")])])
           "expires_in" (PInt 3600) = Ret v /\
    timedelta_seconds v = Ret delta /\
    _access_token (session w') = tok /\
    _refresh_token (session w') = rt /\
    _token_expires_at (session w') = Some (noon + delta) /\
    api_key (session w') = None /\
    tenant_id (session w') = None /\
    auto_refresh (session w') = true /\
    length (sent w') = 1%nat.
Proof.
  destruct (login_stores_tokens (frozen noon) (always (Responded (login_reply 3600)))
              str_of_text pyval Ret "a@b.my" "secret" None (start fresh_client)
              (snd (post (frozen noon) (always (Responded (login_reply 3600))) str_of_text
                         "/api/v1/auth/login"
                         (Some (login_json "a@b.my" "secret" None fresh_client))
                         (start fresh_client)))
              (snd (login (frozen noon) (always (Responded (login_reply 3600)))
                          str_of_text pyval Ret "a@b.my" "secret" None
                          (start fresh_client)))
              (PDict [("access_token", PStr "a1"); ("refresh_token", PStr "r1");
                      ("token_type", PStr "Bearer"); ("expires_in", PInt 3600);
                      ("user", PDict [("id", PStr "u1"); ("email", PStr "a@b.my")])])
              (PDict [("access_token", PStr "a1"); ("refresh_token", PStr "r1");
                      ("token_type", PStr "Bearer"); ("expires_in", PInt 3600);
                      ("user", PDict [("id", PStr "u1"); ("email", PStr "a@b.my")])])
              ltac:(reflexivity) ltac:(reflexivity))
    as (tok & rt & v & delta & H1 & H2 & H3 & H4 & H5 & H6 & H7 & H8 & H9 & H10 & H11).
  exists tok, rt, v, delta.
  repeat split; assumption.
Defined.

Lemma login_partial_failure_witness :
  let net := always (Responded (json_response 200 "{...}"
                                  (PDict login_body_without_refresh))) in
  let run := login (frozen noon) net str_of_text pyval Ret
                   "a@b.my" "secret" None (start (logged_in (noon + 3600000000))) in
  fst run = Raise (PyKeyError "refresh_token") /\
  _access_token (session (snd run)) = PStr "a1" /\
  _refresh_token (session (snd run)) = PStr "r1" /\
  _token_expires_at (session (snd run)) = Some (noon + 3600000000).
Proof.
  apply (proj1 (login_partial_failure (frozen noon)
                  (always (Responded (json_response 200 "{...}"
                                        (PDict login_body_without_refresh))))
                  str_of_text pyval Ret "a@b.my" "secret" None
                  (start (logged_in (noon + 3600000000)))
                  (snd (post (frozen noon)
                          (always (Responded (json_response 200 "{...}"
                                                (PDict login_body_without_refresh))))
                          str_of_text "/api/v1/auth/login"
                          (Some (login_json "a@b.my" "secret" None
                                            (logged_in (noon + 3600000000))))
                          (start (logged_in (noon + 3600000000)))))
                  login_body_without_refresh (PStr "a1")
                  ltac:(reflexivity) ltac:(reflexivity))).
  reflexivity.
Defined.

(** The server announces 60 seconds; the tokens returned say 3600. *)
Lemma AuthService_refresh_reports_3600_witness :
  let net := always (Responded (login_reply 60)) in
  let run := AuthService_refresh (frozen noon) net int_of_int text_of_str
                                 (start (logged_in (noon + 60000000))) in
  exists t,
    fst run = Ret t /\
    at_expires_in t = 3600 /\
    at_token_type t = "Bearer" /\
    exists delta,
      timedelta_seconds (PInt 60) = Ret delta /\
      _token_expires_at (session (snd run)) = Some (noon + delta).
Proof.
  eexists. split; [reflexivity |].
  apply (AuthService_refresh_reports_3600 (frozen noon) (always (Responded (login_reply 60)))
           int_of_int text_of_str (start (logged_in (noon + 60000000))));
    [intros z; reflexivity | intros s; reflexivity | reflexivity].
Defined.

Lemma resource_operations_frame_witness :
  session (snd (resource_delete (frozen noon) (always (Responded (empty_response 404)))
                                str_of_text "/api/v1/customers" "c404"
                                (start (logged_in (noon + 3600000000)))))
    = logged_in (noon + 3600000000).
Proof.
  destruct (resource_operations_frame (frozen noon) (always (Responded (empty_response 404)))
              str_of_text int_of_int pyval Ret (start (logged_in (noon + 3600000000)))
              ltac:(reflexivity))
    as (_ & _ & _ & _ & _ & Hdel & _).
  apply Hdel.
Defined.

Lemma paginated_lists_spec_witness :
  UserService_list (frozen noon) (always (Responded page_two_reply)) str_of_text
                   int_of_int pyval Ret 2 10 (Some "active") (start fresh_client)
    = (Ret (mkPaginatedResponse
              (map customer_json ["c11"; "c12"; "c13"; "c14"; "c15"; "c16"; "c17"; "c18"])
              18 2 10 2),
       snd (get (frozen noon) (always (Responded page_two_reply)) str_of_text
                "/api/v1/users"
                (Some (PDict [("page", PInt 2); ("per_page", PInt 10);
                              ("status", PStr "active")]))
                (start fresh_client))).
Proof.
  apply (proj1 (paginated_lists_spec (frozen noon) (always (Responded page_two_reply))
                  str_of_text int_of_int pyval Ret 2 10 (start fresh_client) _
                  page_two_body
                  (map customer_json ["c11"; "c12"; "c13"; "c14";
                                      "c15"; "c16"; "c17"; "c18"])
                  (map customer_json ["c11"; "c12"; "c13"; "c14";
                                      "c15"; "c16"; "c17"; "c18"])
                  18 2
                  ltac:(reflexivity) ltac:(reflexivity) ltac:(reflexivity)
                  ltac:(reflexivity) ltac:(reflexivity))
               (Some "active")).
  reflexivity.
Defined.

Lemma plain_lists_spec_witness :
  fst (CustomerService_search (frozen noon)
         (always (Responded (json_response 200 "{...}" (PDict search_body))))
         str_of_text pyval Ret "batik" 20 (start fresh_client))
    = Ret [customer_json "c1"; customer_json "c2"].
Proof.
  destruct (plain_lists_spec (frozen noon)
              (always (Responded (json_response 200 "{...}" (PDict search_body))))
              str_of_text pyval Ret (start fresh_client)
              (snd (get (frozen noon)
                      (always (Responded (json_response 200 "{...}" (PDict search_body))))
                      str_of_text "/api/v1/customers/search"
                      (Some (PDict [("q", PStr "batik"); ("limit", PInt 20)]))
                      (start fresh_client)))
              search_body) as (Hsearch & _ & _).
  destruct (Hsearch "batik" 20 ltac:(reflexivity)) as [_ Hitems].
  destruct (Hitems [customer_json "c1"; customer_json "c2"] ltac:(reflexivity))
    as [Hiff _].
  apply Hiff. repeat constructor.
Defined.

Lemma CustomerService_list_malformed_witness :
  fst (CustomerService_list (frozen noon)
         (always (Responded (json_response 200 "[...]" (PList []))))
         str_of_text int_of_int pyval Ret 1 20 None None (start fresh_client))
    = Raise PyAttributeError.
Proof.
  apply (proj1 (CustomerService_list_malformed (frozen noon)
                  (always (Responded (json_response 200 "[...]" (PList []))))
                  str_of_text int_of_int pyval Ret 1 20 None None (start fresh_client)
                  _ (PList []) ltac:(reflexivity))).
  exact I.
Defined.

(** The error of a 403 whose [error] entry is an object cannot be
    printed. *)
Lemma CRMError_str_message_witness :
  exists e,
    fst (raise_for_status 403 (PDict structured_error_body)) = Sdk e /\
    CRMError_str str_of_text e = Raise PyTypeError.
Proof.
  eexists. split; [reflexivity |].
  eapply (proj2 (proj2 (CRMError_str_message str_of_text _)) 403 structured_error_body);
    [exact I | reflexivity | exact I | reflexivity].
Defined.

Lemma refresh_then_due_witness :
  let net := always (Responded (login_reply 60)) in
  let w := start (logged_in (noon + 60000000)) in
  fst (_should_refresh_token (frozen noon) (snd (_refresh_access_token (frozen noon) net w)))
    = Ret true.
Proof.
  apply (refresh_then_due (frozen noon) (always (Responded (login_reply 60)))
           (start (logged_in (noon + 60000000))) noon 60000000);
    [intros k; reflexivity | discriminate | discriminate | reflexivity | reflexivity].
Defined.

